(** * DS1820: command and decode layer of the 1-Wire thermometer driver

    A shallow embedding of [DS1820.c] / [DS1820.h] and the properties of the
    scratchpad codec, the temperature decoder, the alarm threshold codec,
    the device session functions and the device discovery.

    Conventions of the embedding
    - C integers are values of [Z]; every conversion to a fixed-width type is
      written out ([uint8], [uint64], [int32]).  [int] is taken to be 32 bits
      wide, like the [int32_t] the source uses for its intermediate.
    - Arrays are lists, read with [!!!] and written with [<[ i := v ]>];
      an access outside the array is undefined behaviour in C and is a
      [Fault] here.
    - The 1-Wire driver ([OneWire.h]) is not part of the sources; it is a
      parameter of the development (class [OneWire]).  Every call into the
      driver is logged in a trace, so that "which bus operations does this
      function perform" is a statement about a list of events. *)

From Stdlib Require Import ZArith List Lia Bool.
From stdpp Require Import base option list.
Import ListNotations.
Local Open Scope Z_scope.

(** ** Machine integers *)

Module CInt.

(** Conversion to [uint8_t]. *)
Definition uint8 (z : Z) : Z := z mod 256.

(** Conversion to [uint64_t]. *)
Definition uint64 (z : Z) : Z := z mod 2 ^ 64.

(** Conversion to [int] / [int32_t]: two's complement wrap-around. *)
Definition int32 (z : Z) : Z := (z + 2 ^ 31) mod 2 ^ 32 - 2 ^ 31.

(** C truth value of a comparison. *)
Definition c_bool (b : bool) : Z := if b then 1 else 0.

(** Signed division [a / b] of two [int]s: truncation toward zero;
    [None] is the undefined behaviour of a division by zero. *)
Definition int_div (a b : Z) : option Z :=
  if b =? 0 then None else Some (int32 (Z.quot a b)).

End CInt.
Import CInt.

(** ** Constants of [DS1820.c] and [DS1820.h] *)

Definition SCRATCHPAD_READ : Z := 0xBE.
Definition SCRATCHPAD_STORE : Z := 0x48.
Definition SCRATCHPAD_WRITE : Z := 0x4E.
Definition SCRATCHPAD_RECALL : Z := 0xB8.
Definition POWER_SUPPLY_READ : Z := 0xB4.

Definition SCRATCHPAD_LENGTH : Z := 9.
Definition SCRATCHPAD_CRC_POS : Z := SCRATCHPAD_LENGTH - 1.

Definition DS1820_ADDRESS_ALL : Z := 0.
Definition DS1820_FAMILY_CODE : Z := 0x10.

(** [enum _DS1820_State], by the values the header gives its members. *)
Definition DS1820_OK : Z := 0.
Definition DS1820_ERROR : Z := 1.
Definition DS1820_TEMP_ERROR : Z := -10000.
Definition DS1820_PARASITE_POWER : Z := 0x10.
Definition DS1820_EXTERNAL_POWER : Z := 0x20.

(** ** Alarm threshold codec

    The two conversions are written inline, twice each, in
    [DS1820_TemperatureAlarmSet] and [DS1820_TemperatureAlarmGet]; they are
    named here and used from the embeddings of these functions. *)

(** [(d >= 0) ? (uint8_t) d & 0x7F : 0x80 | ((uint8_t) d & 0x7F)], stored in
    a [uint8_t]. *)
Definition AlarmEncode (d : Z) : Z :=
  uint8 (if 0 <=? d
         then Z.land (uint8 d) 0x7F
         else Z.lor 0x80 (Z.land (uint8 d) 0x7F)).

(** [(b & 0x80) ? -((int) (b & 0x7F)) : (int) (b & 0x7F)]. *)
Definition AlarmDecode (b : Z) : Z :=
  if negb (Z.land b 0x80 =? 0)
  then int32 (- int32 (Z.land b 0x7F))
  else int32 (Z.land b 0x7F).

(** ** Temperature decoder

    The arithmetic of [DS1820_TemperatureGet] after the scratchpad has been
    read (steps 1 and 2 and the final division).  [None] is the undefined
    behaviour of the division by [iSPad[7]] when that byte is zero. *)
Definition TemperatureDecode (iSPad : list Z) : option Z :=
  (* iTemp = (iSPad[1] == 0) ? ((int) iSPad[0] * 500) : ((int) iSPad[0] * -500); *)
  let iTemp :=
    int32 (if iSPad !!! 1%nat =? 0
           then int32 (iSPad !!! 0%nat * 500)
           else int32 (iSPad !!! 0%nat * -500)) in
  (* iTemp += -250 + ((1000 * (iSPad[7] - iSPad[6])) / iSPad[7]); *)
  match int_div (int32 (1000 * int32 (iSPad !!! 7%nat - iSPad !!! 6%nat)))
                (iSPad !!! 7%nat) with
  | None => None
  | Some q =>
      let iTemp := int32 (iTemp + int32 (-250 + q)) in
      (* return (int) (iTemp / 100); *)
      match int_div iTemp 100 with
      | None => None
      | Some r => Some (int32 r)
      end
  end.

(** A scratchpad as the decoder receives it: nine bytes. *)
Definition is_scratchpad (sp : list Z) : Prop :=
  length sp = 9%nat /\ Forall (fun b => 0 <= b < 256) sp.

(** The value the documented two-stage formula gives, in unbounded integer
    arithmetic with truncating division. *)
Definition temperature_formula (sp : list Z) : Z :=
  let base := if sp !!! 1%nat =? 0
              then sp !!! 0%nat * 500
              else sp !!! 0%nat * -500 in
  let correction :=
    -250 + Z.quot (1000 * (sp !!! 7%nat - sp !!! 6%nat)) (sp !!! 7%nat) in
  Z.quot (base + correction) 100.

(** ** The 1-Wire driver *)

(** Modelled from the spec: [OneWire.h] and the driver behind it are
    missing from the sources.  The class is the bus collaborator of the
    specification ([Reset], [InitBus], [Select], [SetWeakPullUp],
    [SetStrongPullUp], [WriteByte], [ReadByte], [Crc8Step], [SearchFirst],
    [SearchNext]) under the names [DS1820.c] calls it by, and every
    statement below holds for any instance of it.  [ow_bus] is whatever
    state the driver and the devices on the wire have; an operation that
    returns a value returns it together with the next state.  [OW_NO_DEV]
    is the status by which [OW_ROMMatch] reports that no device is
    present. *)
Class OneWire : Type := {
  ow_bus : Type;
  OW_NO_DEV : Z;
  drv_Init : ow_bus -> ow_bus;
  drv_Reset : ow_bus -> ow_bus;
  drv_WeakPullUp : ow_bus -> ow_bus;
  drv_StrongPullUp : ow_bus -> ow_bus;
  drv_ROMMatch : Z -> ow_bus -> Z * ow_bus;
  drv_ByteWrite : Z -> ow_bus -> ow_bus;
  drv_ByteRead : ow_bus -> Z * ow_bus;
  OW_CRCCalculate : Z -> Z -> Z;
  drv_SearchFirst : Z -> ow_bus -> Z * ow_bus;
  drv_SearchNext : ow_bus -> Z * ow_bus
}.

(** One call into the driver, with its argument and the value it returned. *)
Inductive ow_event : Type :=
| EvInit
| EvReset
| EvWeakPullUp
| EvStrongPullUp
| EvROMMatch (iAddress status : Z)
| EvByteWrite (b : Z)
| EvByteRead (b : Z)
| EvSearchFirst (family iAddress : Z)
| EvSearchNext (iAddress : Z).

(** Is the event a call of one of the two search primitives? *)
Definition is_search (e : ow_event) : bool :=
  match e with
  | EvSearchFirst _ _ | EvSearchNext _ => true
  | _ => false
  end.

(** Undefined behaviours the embedding makes explicit, and the exhaustion of
    the fuel of a loop. *)
Inductive fault : Type :=
| DivisionByZero
| OutOfBounds
| OutOfFuel.

Section Program.

Context {ow : OneWire}.

(** The state a function runs in: the bus, and the calls made so far
    (oldest first). *)
Record World : Type := mkWorld {
  bus : ow_bus;
  trace : list ow_event
}.

Inductive outcome (A : Type) : Type :=
| Done (a : A) (w : World)
| Fault (f : fault) (w : World).
Global Arguments Done {A} a w.
Global Arguments Fault {A} f w.

(** State-and-fault monad of the embedded C functions. *)
Definition M (A : Type) : Type := World -> outcome A.

Definition ret {A} (a : A) : M A := fun w => Done a w.

Definition bind {A B} (m : M A) (k : A -> M B) : M B :=
  fun w => match m w with
           | Done a w' => k a w'
           | Fault f w' => Fault f w'
           end.

Definition raise {A} (f : fault) : M A := fun w => Fault f w.

(** A driver call that returns nothing. *)
Definition call_unit (op : ow_bus -> ow_bus) (e : ow_event) : M unit :=
  fun w => Done tt (mkWorld (op (bus w)) (trace w ++ [e])).

(** A driver call that returns a value. *)
Definition call_val (op : ow_bus -> Z * ow_bus) (e : Z -> ow_event) : M Z :=
  fun w => let (r, b) := op (bus w) in
           Done r (mkWorld b (trace w ++ [e r])).

Definition OW_Init : M unit := call_unit drv_Init EvInit.
Definition OW_Reset : M unit := call_unit drv_Reset EvReset.
Definition OW_WeakPullUp : M unit := call_unit drv_WeakPullUp EvWeakPullUp.
Definition OW_StrongPullUp : M unit := call_unit drv_StrongPullUp EvStrongPullUp.
Definition OW_ROMMatch (iAddress : Z) : M Z :=
  call_val (drv_ROMMatch iAddress) (EvROMMatch iAddress).
Definition OW_ByteWrite (b : Z) : M unit :=
  call_unit (drv_ByteWrite b) (EvByteWrite b).
Definition OW_ByteRead : M Z := call_val drv_ByteRead EvByteRead.
Definition OW_SearchFirst (family : Z) : M Z :=
  call_val (drv_SearchFirst family) (EvSearchFirst family).
Definition OW_SearchNext : M Z := call_val drv_SearchNext EvSearchNext.

(** [a[i] = v]; outside the array the behaviour is undefined. *)
Definition array_store (a : list Z) (i v : Z) : M (list Z) :=
  if (0 <=? i) && (i <? Z.of_nat (length a))
  then ret (<[ Z.to_nat i := v ]> a)
  else raise OutOfBounds.

(** [a[i]]; outside the array the behaviour is undefined. *)
Definition array_load (a : list Z) (i : Z) : M Z :=
  if (0 <=? i) && (i <? Z.of_nat (length a))
  then ret (a !!! Z.to_nat i)
  else raise OutOfBounds.

(** A C expression whose evaluation may be undefined. *)
Definition eval {A} (f : fault) (o : option A) : M A :=
  match o with
  | Some a => ret a
  | None => raise f
  end.

End Program.

Declare Scope ow_scope.
Delimit Scope ow_scope with ow.
Notation "x <- m ;; k" := (bind m (fun x => k))
  (at level 90, m at next level, right associativity) : ow_scope.
Notation "m ;;; k" := (bind m (fun _ => k))
  (at level 90, right associativity) : ow_scope.
Local Open Scope ow_scope.

Section Functions.

Context {ow : OneWire}.

(** *** Internal functions *)

(** The body of the [for] loop of [ScratchPadRead], [n] iterations from
    index [i] on. *)
Fixpoint ScratchPadRead_loop (n : nat) (i iCRC : Z) (Buffer : list Z)
  : M (Z * list Z) :=
  match n with
  | O => ret (iCRC, Buffer)
  | S n' =>
      (* Buffer[i] = OW_ByteRead(); *)
      b <- OW_ByteRead ;;
      Buffer <- array_store Buffer i (uint8 b) ;;
      (* if (i != SCRATCHPAD_CRC_POS) iCRC = OW_CRCCalculate(iCRC, Buffer[i]); *)
      iCRC <- (if negb (i =? SCRATCHPAD_CRC_POS)
               then x <- array_load Buffer i ;;
                    ret (uint8 (OW_CRCCalculate iCRC x))
               else ret iCRC) ;;
      ScratchPadRead_loop n' (i + 1) iCRC Buffer
  end.

(** [uint8_t ScratchPadRead(uint8_t *Buffer)]: the flag returned and the
    buffer as the function leaves it. *)
Definition ScratchPadRead (Buffer : list Z) : M (Z * list Z) :=
  let iCRC := 0 in
  OW_ByteWrite SCRATCHPAD_READ ;;;
  r <- ScratchPadRead_loop (Z.to_nat SCRATCHPAD_LENGTH) 0 iCRC Buffer ;;
  let '(iCRC, Buffer) := r in
  crc <- array_load Buffer SCRATCHPAD_CRC_POS ;;
  ret (uint8 (c_bool (negb (iCRC =? crc))), Buffer).

Definition ScratchPadWrite (iThresholdHigh iThresholdLow : Z) : M unit :=
  OW_ByteWrite SCRATCHPAD_WRITE ;;;
  OW_ByteWrite iThresholdHigh ;;;
  OW_ByteWrite iThresholdLow.

Definition ScratchPadStore : M unit := OW_ByteWrite SCRATCHPAD_STORE.

Definition ScratchPadRecall : M unit := OW_ByteWrite SCRATCHPAD_RECALL.

Definition PowerSupplyType : M Z :=
  OW_ByteWrite POWER_SUPPLY_READ ;;;
  b <- OW_ByteRead ;;
  ret (uint8 (if negb (b =? 0) then DS1820_EXTERNAL_POWER
              else DS1820_PARASITE_POWER)).

Definition TemperatureConvert : M unit := OW_ByteWrite 0x44.

(** The local [uint8_t iSPad[SCRATCHPAD_LENGTH]] before it is filled.  C
    leaves its content indeterminate; [ScratchPadRead] overwrites every
    cell (lemma [ScratchPadRead_spec]). *)
Definition iSPad_local : list Z := replicate (Z.to_nat SCRATCHPAD_LENGTH) 0.

(** *** Public functions *)

Definition DS1820_Init : M unit := OW_Init ;;; OW_Reset.

Definition DS1820_TemperatureConvert (iAddress : Z) : M Z :=
  OW_WeakPullUp ;;;
  r <- OW_ROMMatch iAddress ;;
  if r =? OW_NO_DEV then ret DS1820_ERROR
  else
    TemperatureConvert ;;;
    OW_StrongPullUp ;;;
    ret DS1820_OK.

Definition DS1820_TemperatureGet (iAddress : Z) : M Z :=
  OW_WeakPullUp ;;;
  r <- OW_ROMMatch iAddress ;;
  if negb (r =? 0) then ret DS1820_TEMP_ERROR
  else
    rd <- ScratchPadRead iSPad_local ;;
    let '(flag, iSPad) := rd in
    if negb (flag =? 0) then ret DS1820_TEMP_ERROR
    else eval DivisionByZero (TemperatureDecode iSPad).

Definition DS1820_TemperatureAlarmSet (iAddress iHigh iLow : Z) : M Z :=
  OW_WeakPullUp ;;;
  r <- OW_ROMMatch iAddress ;;
  if negb (r =? 0) then ret DS1820_ERROR
  else
    let iConvHigh := AlarmEncode iHigh in
    let iConvLow := AlarmEncode iLow in
    ScratchPadWrite iConvHigh iConvLow ;;;
    ret DS1820_OK.

(** [iHigh] and [iLow] are the values behind the two output pointers when
    the function is called; the result carries the values behind them
    when it returns. *)
Definition DS1820_TemperatureAlarmGet (iAddress iHigh iLow : Z)
  : M (Z * Z * Z) :=
  OW_WeakPullUp ;;;
  r <- OW_ROMMatch iAddress ;;
  if negb (r =? 0) then ret (DS1820_ERROR, iHigh, iLow)
  else
    rd <- ScratchPadRead iSPad_local ;;
    let '(flag, iSPad) := rd in
    if negb (flag =? 0) then ret (DS1820_ERROR, iHigh, iLow)
    else
      let iHigh := AlarmDecode (iSPad !!! 3%nat) in
      let iLow := AlarmDecode (iSPad !!! 4%nat) in
      ret (DS1820_OK, iHigh, iLow).

Definition DS1820_ConfigurationStore (iAddress : Z) : M Z :=
  OW_WeakPullUp ;;;
  r <- OW_ROMMatch iAddress ;;
  if negb (r =? 0) then ret DS1820_ERROR
  else
    ScratchPadStore ;;;
    OW_StrongPullUp ;;;
    ret DS1820_OK.

Definition DS1820_ConfigurationRecall (iAddress : Z) : M Z :=
  OW_WeakPullUp ;;;
  r <- OW_ROMMatch iAddress ;;
  if negb (r =? 0) then ret DS1820_ERROR
  else
    ScratchPadRecall ;;;
    ret DS1820_OK.

Definition DS1820_PowerTypeGet (iAddress : Z) : M Z :=
  OW_WeakPullUp ;;;
  r <- OW_ROMMatch iAddress ;;
  if negb (r =? 0) then ret DS1820_ERROR
  else PowerSupplyType.

(** The [while] loop of [DS1820_Search]; every iteration uses one unit of
    [fuel] (lemma [DS1820_Search_loop_fuel]: [iMaxDevices - iCount] units
    are enough). *)
Fixpoint DS1820_Search_loop (fuel : nat) (iMaxDevices iAddress iCount : Z)
  (Addresses : list Z) : M (Z * list Z) :=
  if negb (iAddress =? 0) && (iCount <? iMaxDevices) then
    match fuel with
    | O => raise OutOfFuel
    | S fuel' =>
        let iCount := int32 (iCount + 1) in
        Addresses <- array_store Addresses (iCount - 1) iAddress ;;
        iAddress <- OW_SearchNext ;;
        DS1820_Search_loop fuel' iMaxDevices (uint64 iAddress) iCount Addresses
    end
  else ret (iCount, Addresses).

(** [int DS1820_Search(uint64_t *Addresses, int iMaxDevices)]: the count
    returned and the array as the function leaves it. *)
Definition DS1820_Search (Addresses : list Z) (iMaxDevices : Z)
  : M (Z * list Z) :=
  let iCount := 0 in
  OW_WeakPullUp ;;;
  iAddress <- OW_SearchFirst 0 ;;
  r <- DS1820_Search_loop (Z.to_nat iMaxDevices) iMaxDevices
         (uint64 iAddress) iCount Addresses ;;
  OW_Reset ;;;
  ret r.

End Functions.

(** ** Vocabulary of the statements *)

Section Vocabulary.

Context {ow : OneWire}.

(** The world after a driver call [e] that took the bus to [b]. *)
Definition after (w : World) (b : ow_bus) (e : ow_event) : World :=
  mkWorld b (trace w ++ [e]).

(** The status device selection reports for [iAddress] on a bus prepared
    with the weak pull-up. *)
Definition select_status (iAddress : Z) (w : World) : Z :=
  fst (drv_ROMMatch iAddress (drv_WeakPullUp (bus w))).

(** The world after the weak pull-up and the selection of [iAddress]. *)
Definition selected (iAddress : Z) (w : World) : World :=
  let w1 := after w (drv_WeakPullUp (bus w)) EvWeakPullUp in
  after w1 (snd (drv_ROMMatch iAddress (bus w1)))
    (EvROMMatch iAddress (select_status iAddress w)).

(** The next [n] bytes the bus delivers, as [uint8_t] values, and the
    world after they have been read. *)
Fixpoint read_bytes (n : nat) (w : World) : list Z * World :=
  match n with
  | O => ([], w)
  | S n' =>
      let rb := drv_ByteRead (bus w) in
      let rest := read_bytes n' (after w (snd rb) (EvByteRead (fst rb))) in
      (uint8 (fst rb) :: fst rest, snd rest)
  end.

(** The nine bytes a device answers the read-scratchpad command with. *)
Definition scratchpad_read (w : World) : list Z * World :=
  read_bytes 9
    (after w (drv_ByteWrite SCRATCHPAD_READ (bus w))
       (EvByteWrite SCRATCHPAD_READ)).

(** The CRC-8 accumulated over [bytes] in order, from accumulator 0, kept
    in a [uint8_t]. *)
Definition crc_of (bytes : list Z) : Z :=
  fold_left (fun crc b => uint8 (OW_CRCCalculate crc b)) bytes 0.

(** The events a function added to the trace. *)
Definition new_events (w w' : World) : list ow_event :=
  drop (length (trace w)) (trace w').

(** Discovery with [maxCount = 0] as the specification words it: nothing
    found, nothing written, and no search primitive invoked. *)
Definition search_zero_silent (Addresses : list Z) (w : World) : Prop :=
  exists w', DS1820_Search Addresses 0 w = Done (0, Addresses) w' /\
             existsb is_search (new_events w w') = false.

End Vocabulary.

(** ** Vocabulary of the further properties *)

Section Outcomes.

Context {ow : OneWire}.

(** The world a run ends in, whether it returns or faults. *)
Definition outcome_world {A} (o : outcome A) : World :=
  match o with
  | Done _ w => w
  | Fault _ w => w
  end.

(** The events of a scratchpad read: the command and the nine bytes the
    driver returned. *)
Definition scratchpad_events (raw : list Z) : list ow_event :=
  EvByteWrite SCRATCHPAD_READ :: map EvByteRead raw.

(** The next [n] answers of [OW_SearchNext] on bus [b], as the [uint64_t]
    values [DS1820_Search] keeps them. *)
Fixpoint search_answers (n : nat) (b : ow_bus) : list Z :=
  match n with
  | O => []
  | S n' =>
      let r := drv_SearchNext b in
      uint64 (fst r) :: search_answers n' (snd r)
  end.

End Outcomes.

(** ** A simulated bus

    A driver instance on which the functions can be run: the bus answers
    device selection with a fixed status, delivers a queue of bytes to
    [OW_ByteRead] (an idle line reads [0xFF]) and a queue of addresses to the
    search primitives ([0] when there is no further device).  Its CRC is the
    Dallas/Maxim CRC-8 of 1-Wire devices.  It is used to run the theorems
    below on concrete inputs; no theorem depends on it. *)
Module Sim.

Record sim_bus : Type := mkSim {
  sim_status : Z;
  sim_rx : list Z;
  sim_devices : list Z
}.

Definition sim_read (s : sim_bus) : Z * sim_bus :=
  match sim_rx s with
  | [] => (0xFF, s)
  | b :: rx => (b, mkSim (sim_status s) rx (sim_devices s))
  end.

Definition sim_search (s : sim_bus) : Z * sim_bus :=
  match sim_devices s with
  | [] => (0, s)
  | a :: ds => (a, mkSim (sim_status s) (sim_rx s) ds)
  end.

(** One bit of the CRC-8 with polynomial [x^8 + x^5 + x^4 + 1], least
    significant bit first. *)
Fixpoint crc8_bits (n : nat) (crc byte : Z) : Z :=
  match n with
  | O => crc
  | S n' =>
      let mix := Z.land (Z.lxor crc byte) 1 in
      let crc := Z.shiftr crc 1 in
      let crc := if mix =? 0 then crc else Z.lxor crc 0x8C in
      crc8_bits n' crc (Z.shiftr byte 1)
  end.

(** The CRC-8 of each single byte from accumulator 0, tabulated as 1-Wire
    drivers do. *)
Definition crc8_table : list Z :=
  Eval vm_compute in map (fun b => crc8_bits 8 0 (Z.of_nat b)) (seq 0 256).

(** One step of the CRC: the table entry of accumulator xor byte. *)
Definition crc8 (crc byte : Z) : Z :=
  nth (Z.to_nat (Z.lxor crc byte)) crc8_table 0.

Definition driver : OneWire := {|
  ow_bus := sim_bus;
  OW_NO_DEV := 1;
  drv_Init := fun s => s;
  drv_Reset := fun s => s;
  drv_WeakPullUp := fun s => s;
  drv_StrongPullUp := fun s => s;
  drv_ROMMatch := fun _ s => (sim_status s, s);
  drv_ByteWrite := fun _ s => s;
  drv_ByteRead := sim_read;
  OW_CRCCalculate := crc8;
  drv_SearchFirst := fun _ => sim_search;
  drv_SearchNext := sim_search
|}.

(** A world with an empty trace. *)
Definition world (status : Z) (rx devices : list Z) : @World driver :=
  @mkWorld driver (mkSim status rx devices) [].

(** The scratchpad of the end-to-end example of the specification, with
    its CRC byte. *)
Definition sample_negative : list Z :=
  [0x91; 0x01; 0x4B; 0x46; 0x7F; 0xFF; 0x0C; 0x10; 0x70].

(** A positive reading, count [0x2F], with a nonzero correction term:
    24.0 degrees. *)
Definition sample_positive : list Z :=
  [0x2F; 0x00; 0x4B; 0x46; 0xFF; 0xFF; 0x04; 0x10; 0x35].

(** A line held low reads as zeros; the CRC-8 of eight zero bytes is
    zero, so this scratchpad passes the CRC check. *)
Definition sample_zeros : list Z := [0; 0; 0; 0; 0; 0; 0; 0; 0].

(** A scratchpad whose CRC byte has been corrupted. *)
Definition sample_corrupt : list Z :=
  [0x91; 0x01; 0x4B; 0x46; 0x7F; 0xFF; 0x0C; 0x10; 0x00].

End Sim.


(** ** Machine integers: basic facts *)

Lemma uint8_range z : 0 <= uint8 z < 256.
Proof. unfold uint8. apply Z.mod_pos_bound. lia. Qed.

Lemma int32_id z : - 2 ^ 31 <= z < 2 ^ 31 -> int32 z = z.
Proof.
  intros H. unfold int32.
  rewrite Z.mod_small; lia.
Qed.

Lemma int_div_nonzero a b :
  b <> 0 -> - 2 ^ 31 <= Z.quot a b < 2 ^ 31 -> int_div a b = Some (Z.quot a b).
Proof.
  intros Hb Hq. unfold int_div.
  destruct (Z.eqb_spec b 0) as [->|_]; [congruence|].
  now rewrite int32_id.
Qed.

(** Truncating division by a positive number keeps a value between bounds
    that enclose zero. *)
Lemma quot_between a b lo hi :
  0 < b -> lo <= 0 <= hi -> lo <= a <= hi -> lo <= Z.quot a b <= hi.
Proof.
  intros Hb Hz Ha.
  destruct (Z.le_gt_cases 0 a) as [Hpos|Hneg].
  - rewrite Z.quot_div_nonneg by lia.
    pose proof (Z.div_pos a b Hpos Hb).
    pose proof (Z.div_le_upper_bound a b a Hb ltac:(nia)). lia.
  - replace a with (- (- a)) by lia.
    rewrite Z.quot_opp_l by lia.
    rewrite Z.quot_div_nonneg by lia.
    pose proof (Z.div_pos (- a) b ltac:(lia) Hb).
    pose proof (Z.div_le_upper_bound (- a) b (- a) Hb ltac:(nia)). lia.
Qed.

(** ** Alarm threshold codec *)

(** A boolean check that holds on [n] consecutive integers from [lo] on
    holds on every integer of that interval. *)
Lemma forallb_Z_range (f : Z -> bool) (lo : Z) (n : nat) :
  forallb f (map (fun k => lo + Z.of_nat k) (seq 0 n)) = true ->
  forall d, lo <= d < lo + Z.of_nat n -> f d = true.
Proof.
  intros HF d Hd.
  rewrite forallb_forall in HF. apply HF.
  apply in_map_iff.
  exists (Z.to_nat (d - lo)). split; [lia|].
  apply in_seq. lia.
Qed.

Lemma AlarmDecode_range b : -127 <= AlarmDecode b <= 127.
Proof.
  unfold AlarmDecode.
  assert (Hm : 0 <= Z.land b 0x7F < 128).
  { change 0x7F with (Z.ones 7). rewrite Z.land_ones by lia.
    apply Z.mod_pos_bound. lia. }
  rewrite (int32_id (Z.land b 0x7F)) by lia.
  rewrite (int32_id (- Z.land b 0x7F)) by lia.
  destruct (Z.land b 0x80 =? 0); cbn [negb]; lia.
Qed.

Lemma alarm_round_trip_table :
  forallb (fun d => AlarmDecode (AlarmEncode d)
                    =? (if 0 <=? d then d else - (128 + d)))
    (map (fun k => -127 + Z.of_nat k) (seq 0 255)) = true.
Proof. vm_compute. reflexivity. Qed.

(** C3 (the code departs from the claim).  For a threshold [d] in
    [-127, 127], decoding the byte that [DS1820_TemperatureAlarmSet] encodes
    [d] into gives [d] back when [d] is non-negative, but [-(128 + d)] when
    [d] is negative: the encoder keeps the low seven bits of the two's
    complement of [d] where the decoder expects a magnitude. *)
Theorem AlarmDecode_AlarmEncode (d : Z) :
  -127 <= d <= 127 ->
  AlarmDecode (AlarmEncode d) = if 0 <=? d then d else - (128 + d).
Proof.
  intros Hd. apply Z.eqb_eq.
  apply (forallb_Z_range _ (-127) 255 alarm_round_trip_table). lia.
Qed.

Lemma AlarmDecode_AlarmEncode_minus_one :
  -127 <= -1 <= 127 /\ AlarmDecode (AlarmEncode (-1)) = -127.
Proof.
  split; [lia|]. apply (AlarmDecode_AlarmEncode (-1)). lia.
Defined.

(** C4 (the code departs from the claim).  The encoder of
    [DS1820_TemperatureAlarmSet] at the four boundary values: [0] and [127]
    give [0x00] and [0x7F]; [-1] gives [0xFF] and [-127] gives [0x81]. *)
Theorem AlarmEncode_boundaries :
  AlarmEncode 0 = 0x00 /\ AlarmEncode 127 = 0x7F /\
  AlarmEncode (-1) = 0xFF /\ AlarmEncode (-127) = 0x81.
Proof. repeat split; reflexivity. Qed.

(** ** Temperature decoder *)

Lemma scratchpad_byte (sp : list Z) (k : nat) :
  is_scratchpad sp -> (k < 9)%nat -> 0 <= sp !!! k < 256.
Proof.
  intros [Hlen Hall] Hk.
  apply (Forall_lookup_total_1 (fun b => 0 <= b < 256)); [exact Hall|lia].
Qed.

(** The correction term of step 2 for a nonzero count-per-degree byte. *)
Lemma correction_range (b6 b7 : Z) :
  0 <= b6 < 256 -> 0 < b7 < 256 ->
  -254000 <= Z.quot (1000 * (b7 - b6)) b7 <= 1000.
Proof.
  intros H6 H7. split.
  - apply (quot_between (1000 * (b7 - b6)) b7 (-254000) 255000); lia.
  - apply Z.quot_le_upper_bound; lia.
Qed.

(** No conversion of the decoder wraps around: on a scratchpad with a
    nonzero count-per-degree byte the C arithmetic is the arithmetic of the
    documented formula. *)
Lemma TemperatureDecode_formula (sp : list Z) :
  is_scratchpad sp -> sp !!! 7%nat <> 0 ->
  TemperatureDecode sp = Some (temperature_formula sp).
Proof.
  intros Hsp H7.
  pose proof (scratchpad_byte sp 0 Hsp ltac:(lia)) as B0.
  pose proof (scratchpad_byte sp 6 Hsp ltac:(lia)) as B6.
  pose proof (scratchpad_byte sp 7 Hsp ltac:(lia)) as B7.
  unfold TemperatureDecode, temperature_formula.
  set (b0 := sp !!! 0%nat) in *. set (b1 := sp !!! 1%nat) in *.
  set (b6 := sp !!! 6%nat) in *. set (b7 := sp !!! 7%nat) in *.
  pose proof (correction_range b6 b7 B6 ltac:(lia)) as Hc.
  set (q := Z.quot (1000 * (b7 - b6)) b7) in *.
  rewrite (int32_id (b7 - b6)) by lia.
  rewrite (int32_id (1000 * (b7 - b6))) by lia.
  rewrite (int_div_nonzero _ b7 H7) by (fold q; lia).
  fold q.
  rewrite (int32_id (b0 * 500)), (int32_id (b0 * -500)) by lia.
  set (base := if b1 =? 0 then b0 * 500 else b0 * -500).
  assert (Hbase : -127500 <= base <= 127500)
    by (unfold base; destruct (b1 =? 0); lia).
  rewrite (int32_id base), (int32_id (-250 + q)) by lia.
  rewrite (int32_id (base + (-250 + q))) by lia.
  assert (Hr : -381750 <= Z.quot (base + (-250 + q)) 100 <= 128250)
    by (apply quot_between; lia).
  rewrite int_div_nonzero by lia.
  rewrite int32_id by lia.
  reflexivity.
Qed.

(** The values the formula takes. *)
Lemma temperature_formula_range (sp : list Z) :
  is_scratchpad sp -> sp !!! 7%nat <> 0 ->
  -3817 <= temperature_formula sp <= 1282.
Proof.
  intros Hsp H7.
  pose proof (scratchpad_byte sp 0 Hsp ltac:(lia)) as B0.
  pose proof (scratchpad_byte sp 6 Hsp ltac:(lia)) as B6.
  pose proof (scratchpad_byte sp 7 Hsp ltac:(lia)) as B7.
  unfold temperature_formula.
  set (b0 := sp !!! 0%nat) in *. set (b1 := sp !!! 1%nat) in *.
  set (b6 := sp !!! 6%nat) in *. set (b7 := sp !!! 7%nat) in *.
  pose proof (correction_range b6 b7 B6 ltac:(lia)) as Hc.
  set (q := Z.quot (1000 * (b7 - b6)) b7) in *.
  set (base := if b1 =? 0 then b0 * 500 else b0 * -500).
  assert (Hbase : -127500 <= base <= 127500)
    by (unfold base; destruct (b1 =? 0); lia).
  split.
  - change (-3817) with (Z.quot (-381750) 100).
    apply Z.quot_le_mono; lia.
  - change 1282 with (Z.quot 128250 100).
    apply Z.quot_le_mono; lia.
Qed.

(** The decoder on the two sample scratchpads: -72.5 and 24.0 degrees. *)
Example TemperatureDecode_samples :
  TemperatureDecode Sim.sample_negative = Some (-725) /\
  TemperatureDecode Sim.sample_positive = Some 240.
Proof. split; reflexivity. Qed.

(** C9.  For every nine-byte scratchpad whose count-per-degree byte
    (byte 7) is nonzero, the decoding of [DS1820_TemperatureGet] yields a
    value, and that value is not the sentinel [DS1820_TEMP_ERROR]
    (-10000): it lies between -3817 and 1282 tenths of a degree. *)
Theorem TemperatureDecode_not_sentinel (sp : list Z) :
  is_scratchpad sp -> sp !!! 7%nat <> 0 ->
  exists v, TemperatureDecode sp = Some v /\
            v <> DS1820_TEMP_ERROR /\ -3817 <= v <= 1282.
Proof.
  intros Hsp H7.
  exists (temperature_formula sp).
  pose proof (temperature_formula_range sp Hsp H7) as Hr.
  split; [now apply TemperatureDecode_formula|].
  split; [unfold DS1820_TEMP_ERROR; lia|exact Hr].
Qed.

Lemma sample_is_scratchpad (sp : list Z) :
  length sp = 9%nat -> forallb (fun b => (0 <=? b) && (b <? 256)) sp = true ->
  is_scratchpad sp.
Proof.
  intros Hlen Hall. split; [exact Hlen|].
  apply Forall_forall. intros b Hb.
  rewrite forallb_forall in Hall.
  apply list_elem_of_In, Hall in Hb. lia.
Qed.

Lemma TemperatureDecode_not_sentinel_sample :
  is_scratchpad Sim.sample_negative /\
  Sim.sample_negative !!! 7%nat <> 0 /\
  exists v, TemperatureDecode Sim.sample_negative = Some v /\
            v <> DS1820_TEMP_ERROR /\ -3817 <= v <= 1282.
Proof.
  assert (Hsp : is_scratchpad Sim.sample_negative)
    by (apply sample_is_scratchpad; reflexivity).
  assert (H7 : Sim.sample_negative !!! 7%nat <> 0)
    by (vm_compute; discriminate).
  split; [exact Hsp|]. split; [exact H7|].
  exact (TemperatureDecode_not_sentinel Sim.sample_negative Hsp H7).
Defined.

(** ** Scratchpad codec *)

Section Scratchpad.

Context {ow : OneWire}.

Lemma read_bytes_length n : forall w, length (fst (read_bytes n w)) = n.
Proof.
  induction n as [|n IH]; intros w; simpl; [reflexivity|].
  now rewrite IH.
Qed.

Lemma read_bytes_range n :
  forall w, Forall (fun b => 0 <= b < 256) (fst (read_bytes n w)).
Proof.
  induction n as [|n IH]; intros w; simpl; constructor.
  - apply uint8_range.
  - apply IH.
Qed.

Lemma array_store_in (a : list Z) (k : nat) (v : Z) (w : World) :
  (k < length a)%nat ->
  array_store a (Z.of_nat k) v w = Done (<[ k := v ]> a) w.
Proof.
  intros Hk. unfold array_store.
  replace ((0 <=? Z.of_nat k) && (Z.of_nat k <? Z.of_nat (length a)))
    with true by (symmetry; apply andb_true_iff; split;
                  [apply Z.leb_le|apply Z.ltb_lt]; lia).
  now rewrite Nat2Z.id.
Qed.

Lemma array_load_in (a : list Z) (k : nat) (w : World) :
  (k < length a)%nat ->
  array_load a (Z.of_nat k) w = Done (a !!! k) w.
Proof.
  intros Hk. unfold array_load.
  replace ((0 <=? Z.of_nat k) && (Z.of_nat k <? Z.of_nat (length a)))
    with true by (symmetry; apply andb_true_iff; split;
                  [apply Z.leb_le|apply Z.ltb_lt]; lia).
  now rewrite Nat2Z.id.
Qed.

(** The loop from index [k] on: it leaves the cells below [k] alone,
    stores the bytes read in the cells from [k] on, and accumulates the
    CRC over those of them that lie below the CRC position. *)
Lemma ScratchPadRead_loop_spec n :
  forall (k : nat) (iCRC : Z) (Buffer : list Z) (w : World),
    (k + n = 9)%nat -> length Buffer = 9%nat ->
    ScratchPadRead_loop n (Z.of_nat k) iCRC Buffer w =
    Done (fold_left (fun crc b => uint8 (OW_CRCCalculate crc b))
            (take (8 - k) (fst (read_bytes n w))) iCRC,
          take k Buffer ++ fst (read_bytes n w))
         (snd (read_bytes n w)).
Proof.
  induction n as [|n IH]; intros k iCRC Buffer w Hk Hlen.
  - simpl. rewrite take_nil, (take_ge Buffer) by lia. now rewrite app_nil_r.
  - cbn [ScratchPadRead_loop read_bytes fst snd].
    unfold bind at 1. unfold OW_ByteRead, call_val.
    destruct (drv_ByteRead (bus w)) as [b s] eqn:Hrd.
    cbn [fst snd]. fold (after w s (EvByteRead b)).
    set (w1 := after w s (EvByteRead b)).
    unfold bind at 1.
    rewrite array_store_in by lia.
    assert (Hlen1 : length (<[k:=uint8 b]> Buffer) = 9%nat)
      by now rewrite length_insert.
    assert (Htake : take (S k) (<[k:=uint8 b]> Buffer)
                    = take k Buffer ++ [uint8 b]).
    { rewrite (take_S_r _ _ (uint8 b)).
      - now rewrite take_insert_ge by lia.
      - apply list_lookup_insert_eq. lia. }
    replace (Z.of_nat k + 1) with (Z.of_nat (S k)) by lia.
    unfold bind at 1.
    destruct (Z.eqb_spec (Z.of_nat k) SCRATCHPAD_CRC_POS) as [H8|H8];
      unfold SCRATCHPAD_CRC_POS, SCRATCHPAD_LENGTH in H8; cbn [negb].
    + assert (k = 8)%nat by lia. subst k.
      unfold ret at 1.
      rewrite IH by lia. rewrite Htake.
      cbn [Nat.sub take fold_left]. now rewrite <- app_assoc.
    + unfold bind at 1.
      rewrite array_load_in by lia.
      rewrite list_lookup_total_insert_eq by lia.
      unfold ret at 1.
      rewrite IH by lia. rewrite Htake.
      replace (8 - k)%nat with (S (8 - S k)) by lia.
      cbn [take fold_left]. now rewrite <- app_assoc.
Qed.

(** [ScratchPadRead] on a nine-cell buffer: it returns, the buffer then
    holds the nine bytes the bus delivered, and the flag tells whether the
    CRC accumulated over the first eight differs from the ninth. *)
Lemma ScratchPadRead_spec (Buffer : list Z) (w : World) :
  length Buffer = 9%nat ->
  let sp := fst (scratchpad_read w) in
  ScratchPadRead Buffer w =
  Done (c_bool (negb (crc_of (take 8 sp) =? sp !!! 8%nat)), sp)
       (snd (scratchpad_read w)).
Proof.
  intros Hlen sp. unfold ScratchPadRead.
  unfold bind at 1. unfold OW_ByteWrite, call_unit.
  change (Z.to_nat SCRATCHPAD_LENGTH) with 9%nat.
  unfold bind at 1.
  rewrite (ScratchPadRead_loop_spec 9 0 0 Buffer) by (lia || exact Hlen).
  unfold sp, scratchpad_read, after.
  set (rb := read_bytes 9 _).
  assert (Hrb : length (fst rb) = 9%nat) by apply read_bytes_length.
  rewrite take_0, app_nil_l. change (8 - 0)%nat with 8%nat.
  change SCRATCHPAD_CRC_POS with (Z.of_nat 8).
  unfold bind at 1.
  rewrite array_load_in by lia.
  unfold ret, crc_of.
  now destruct (_ =? fst rb !!! 8%nat).
Qed.

Lemma scratchpad_read_is_scratchpad (w : World) :
  is_scratchpad (fst (scratchpad_read w)).
Proof.
  split; [apply read_bytes_length|apply read_bytes_range].
Qed.

(** Every session function starts with the weak pull-up and the device
    selection, and goes on with the status reported. *)
Lemma select_run {A} (iAddress : Z) (k : Z -> M A) (w : World) :
  (OW_WeakPullUp ;;; r <- OW_ROMMatch iAddress ;; k r) w =
  k (select_status iAddress w) (selected iAddress w).
Proof.
  unfold bind, OW_WeakPullUp, OW_ROMMatch, call_unit, call_val.
  unfold selected, after, select_status. cbn [bus trace].
  now destruct (drv_ROMMatch iAddress (drv_WeakPullUp (bus w))).
Qed.

Lemma selected_trace (iAddress : Z) (w : World) :
  trace (selected iAddress w) =
  trace w ++ [EvWeakPullUp; EvROMMatch iAddress (select_status iAddress w)].
Proof.
  unfold selected, after. cbn [trace]. now rewrite <- app_assoc.
Qed.

Lemma new_events_app (w w' : World) (es : list ow_event) :
  trace w' = trace w ++ es -> new_events w w' = es.
Proof.
  intros H. unfold new_events. rewrite H. apply drop_app_length.
Qed.

(** [DS1820_TemperatureGet], case by case. *)
Lemma DS1820_TemperatureGet_run (iAddress : Z) (w : World) :
  let sp := fst (scratchpad_read (selected iAddress w)) in
  let w' := snd (scratchpad_read (selected iAddress w)) in
  DS1820_TemperatureGet iAddress w =
  if negb (select_status iAddress w =? 0)
  then Done DS1820_TEMP_ERROR (selected iAddress w)
  else if negb (crc_of (take 8 sp) =? sp !!! 8%nat)
       then Done DS1820_TEMP_ERROR w'
       else eval DivisionByZero (TemperatureDecode sp) w'.
Proof.
  intros sp w'. unfold DS1820_TemperatureGet.
  rewrite select_run.
  destruct (negb (select_status iAddress w =? 0)); [reflexivity|].
  unfold bind at 1.
  rewrite ScratchPadRead_spec by reflexivity.
  fold sp w'.
  now destruct (crc_of (take 8 sp) =? sp !!! 8%nat).
Qed.

(** [DS1820_TemperatureAlarmGet], case by case. *)
Lemma DS1820_TemperatureAlarmGet_run (iAddress iHigh iLow : Z) (w : World) :
  let sp := fst (scratchpad_read (selected iAddress w)) in
  let w' := snd (scratchpad_read (selected iAddress w)) in
  DS1820_TemperatureAlarmGet iAddress iHigh iLow w =
  if negb (select_status iAddress w =? 0)
  then Done (DS1820_ERROR, iHigh, iLow) (selected iAddress w)
  else if negb (crc_of (take 8 sp) =? sp !!! 8%nat)
       then Done (DS1820_ERROR, iHigh, iLow) w'
       else Done (DS1820_OK, AlarmDecode (sp !!! 3%nat),
                  AlarmDecode (sp !!! 4%nat)) w'.
Proof.
  intros sp w'. unfold DS1820_TemperatureAlarmGet.
  rewrite select_run.
  destruct (negb (select_status iAddress w =? 0)); [reflexivity|].
  unfold bind at 1.
  rewrite ScratchPadRead_spec by reflexivity.
  fold sp w'.
  now destruct (crc_of (take 8 sp) =? sp !!! 8%nat).
Qed.

End Scratchpad.

(** ** Device session *)

Section Session.

Context {ow : OneWire}.

(** C1.  When device selection succeeds, the nine bytes read pass the CRC
    check and byte 7 is nonzero, [DS1820_TemperatureGet] returns the
    two-stage fixed-point value: [byte0 * 500] if byte 1 is zero and
    [byte0 * -500] otherwise, plus
    [-250 + (1000 * (byte7 - byte6)) / byte7], the sum divided by 100,
    both divisions truncating toward zero. *)
Theorem DS1820_TemperatureGet_formula
  (iAddress : Z) (w : World) (sp : list Z) (w' : World) :
  select_status iAddress w = 0 ->
  scratchpad_read (selected iAddress w) = (sp, w') ->
  crc_of (take 8 sp) = sp !!! 8%nat ->
  sp !!! 7%nat <> 0 ->
  DS1820_TemperatureGet iAddress w =
  Done (Z.quot ((if sp !!! 1%nat =? 0
                 then sp !!! 0%nat * 500
                 else sp !!! 0%nat * -500)
                + (-250 + Z.quot (1000 * (sp !!! 7%nat - sp !!! 6%nat))
                                 (sp !!! 7%nat)))
               100) w'.
Proof.
  intros Hsel Hrd Hcrc H7.
  pose proof (scratchpad_read_is_scratchpad (selected iAddress w)) as Hsp.
  rewrite DS1820_TemperatureGet_run, Hsel, Hrd in *.
  cbn [fst snd negb Z.eqb] in *.
  rewrite Hcrc, Z.eqb_refl. cbn [negb].
  now rewrite (TemperatureDecode_formula sp Hsp H7).
Qed.

(** C2 (the code departs from the claim).  When device selection
    succeeds, the nine bytes read pass the CRC check and byte 7 is zero,
    [DS1820_TemperatureGet] does not return the error value: it divides
    by byte 7, which is undefined behaviour. *)
Theorem DS1820_TemperatureGet_zero_divisor
  (iAddress : Z) (w : World) (sp : list Z) (w' : World) :
  select_status iAddress w = 0 ->
  scratchpad_read (selected iAddress w) = (sp, w') ->
  crc_of (take 8 sp) = sp !!! 8%nat ->
  sp !!! 7%nat = 0 ->
  DS1820_TemperatureGet iAddress w = Fault DivisionByZero w'.
Proof.
  intros Hsel Hrd Hcrc H7.
  rewrite DS1820_TemperatureGet_run, Hsel, Hrd.
  cbn [fst snd negb Z.eqb].
  rewrite Hcrc, Z.eqb_refl. cbn [negb].
  unfold TemperatureDecode. now rewrite H7.
Qed.

(** C5.  For the nine bytes [sp] the bus delivers, [ScratchPadRead]
    returns a nonzero flag exactly when the CRC-8 accumulated over bytes 0
    to 7 in order, from accumulator 0, differs from byte 8; and on such a
    mismatch [DS1820_TemperatureGet] returns [DS1820_TEMP_ERROR] and
    [DS1820_TemperatureAlarmGet] returns [DS1820_ERROR] with both
    thresholds as they were, whatever the other eight bytes are. *)
Theorem ScratchPadRead_crc
  (Buffer : list Z) (w1 : World) (sp : list Z) (w' : World) :
  length Buffer = 9%nat ->
  scratchpad_read w1 = (sp, w') ->
  (exists flag,
      ScratchPadRead Buffer w1 = Done (flag, sp) w' /\
      (flag <> 0 <-> crc_of (take 8 sp) <> sp !!! 8%nat)) /\
  (crc_of (take 8 sp) <> sp !!! 8%nat ->
   forall iAddress w,
     select_status iAddress w = 0 -> selected iAddress w = w1 ->
     DS1820_TemperatureGet iAddress w = Done DS1820_TEMP_ERROR w' /\
     forall iHigh iLow,
       DS1820_TemperatureAlarmGet iAddress iHigh iLow w =
       Done (DS1820_ERROR, iHigh, iLow) w').
Proof.
  intros Hlen Hrd. split.
  - eexists. split.
    + rewrite (ScratchPadRead_spec Buffer w1 Hlen), Hrd. reflexivity.
    + cbn [fst].
      destruct (Z.eqb_spec (crc_of (take 8 sp)) (sp !!! 8%nat)) as [E|E];
        cbn [negb c_bool]; split; intros H; congruence || lia.
  - intros Hcrc iAddress w Hsel Hw1.
    apply Z.eqb_neq in Hcrc.
    split; [|intros iHigh iLow].
    + rewrite DS1820_TemperatureGet_run, Hsel, Hw1, Hrd.
      cbn [fst snd negb Z.eqb]. now rewrite Hcrc.
    + rewrite DS1820_TemperatureAlarmGet_run, Hsel, Hw1, Hrd.
      cbn [fst snd negb Z.eqb]. now rewrite Hcrc.
Qed.

(** C6.  When device selection fails (the status it reports is nonzero,
    which is how [DS1820_TemperatureGet] tests it), and when the
    scratchpad CRC check fails, [DS1820_TemperatureGet] returns the same
    value [DS1820_TEMP_ERROR]. *)
Theorem DS1820_TemperatureGet_sentinel (iAddress : Z) (w : World) :
  (select_status iAddress w <> 0 \/
   crc_of (take 8 (fst (scratchpad_read (selected iAddress w))))
   <> fst (scratchpad_read (selected iAddress w)) !!! 8%nat) ->
  exists w', DS1820_TemperatureGet iAddress w = Done DS1820_TEMP_ERROR w'.
Proof.
  intros H. rewrite DS1820_TemperatureGet_run.
  destruct (Z.eqb_spec (select_status iAddress w) 0) as [Hs|Hs];
    cbn [negb]; [|eexists; reflexivity].
  destruct H as [H|H]; [contradiction|].
  apply Z.eqb_neq in H. rewrite H. cbn [negb].
  eexists; reflexivity.
Qed.

(** C7.  When device selection reports [OW_NO_DEV] for the address,
    [DS1820_TemperatureConvert] returns [DS1820_ERROR] and the only calls
    it has made are the weak pull-up and the selection: the
    start-conversion command is not written and the strong pull-up is not
    set. *)
Theorem DS1820_TemperatureConvert_absent (iAddress : Z) (w : World) :
  select_status iAddress w = OW_NO_DEV ->
  exists w',
    DS1820_TemperatureConvert iAddress w = Done DS1820_ERROR w' /\
    new_events w w' = [EvWeakPullUp; EvROMMatch iAddress OW_NO_DEV] /\
    ~ In (EvByteWrite 0x44) (new_events w w') /\
    ~ In EvStrongPullUp (new_events w w').
Proof.
  intros Hsel. exists (selected iAddress w).
  unfold DS1820_TemperatureConvert.
  rewrite select_run, Hsel, Z.eqb_refl.
  split; [reflexivity|].
  assert (Hnew : new_events w (selected iAddress w)
                 = [EvWeakPullUp; EvROMMatch iAddress OW_NO_DEV]).
  { apply new_events_app. now rewrite selected_trace, Hsel. }
  rewrite Hnew. split; [reflexivity|].
  split; intros [H|[H|[]]]; discriminate H.
Qed.

(** C10.  [DS1820_TemperatureAlarmGet] always returns.  When device
    selection fails or the scratchpad CRC check fails it returns
    [DS1820_ERROR] and the values behind [iHigh] and [iLow] are the ones
    the caller had; otherwise it returns [DS1820_OK] and both values lie
    in [-127, 127]. *)
Theorem DS1820_TemperatureAlarmGet_outputs
  (iAddress iHigh iLow : Z) (w : World) :
  let sp := fst (scratchpad_read (selected iAddress w)) in
  exists st iHigh' iLow' w',
    DS1820_TemperatureAlarmGet iAddress iHigh iLow w
    = Done (st, iHigh', iLow') w' /\
    (((select_status iAddress w <> 0 \/
       crc_of (take 8 sp) <> sp !!! 8%nat) /\
      st = DS1820_ERROR /\ iHigh' = iHigh /\ iLow' = iLow)
     \/
     ((select_status iAddress w = 0 /\
       crc_of (take 8 sp) = sp !!! 8%nat) /\
      st = DS1820_OK /\
      -127 <= iHigh' <= 127 /\ -127 <= iLow' <= 127)).
Proof.
  intros sp. rewrite DS1820_TemperatureAlarmGet_run. fold sp.
  destruct (Z.eqb_spec (select_status iAddress w) 0) as [Hs|Hs];
    cbn [negb].
  - destruct (Z.eqb_spec (crc_of (take 8 sp)) (sp !!! 8%nat)) as [Hc|Hc];
      cbn [negb]; do 4 eexists; (split; [reflexivity|]).
    + right. repeat split; try assumption; apply AlarmDecode_range.
    + left. repeat split. now right.
  - do 4 eexists. split; [reflexivity|].
    left. repeat split. now left.
Qed.

End Session.

(** ** Discovery *)

Section Discovery.

Context {ow : OneWire}.

(** The loop of [DS1820_Search] never runs out of fuel when it is given
    [iMaxDevices - iCount] units of it. *)
Lemma DS1820_Search_loop_fuel (fuel : nat) :
  forall (iMaxDevices iAddress iCount : Z) (Addresses : list Z)
         (w w' : World),
    0 <= iCount -> iMaxDevices < 2 ^ 31 ->
    iMaxDevices - iCount <= Z.of_nat fuel ->
    DS1820_Search_loop fuel iMaxDevices iAddress iCount Addresses w
    <> Fault OutOfFuel w'.
Proof.
  induction fuel as [|fuel IH];
    intros iMaxDevices iAddress iCount Addresses w w' Hc Hmax Hfuel.
  - cbn [DS1820_Search_loop].
    destruct (Z.ltb_spec iCount iMaxDevices) as [Hlt|Hge]; [lia|].
    rewrite andb_false_r. discriminate.
  - cbn [DS1820_Search_loop].
    destruct (negb (iAddress =? 0) && (iCount <? iMaxDevices)) eqn:Hcond;
      [|discriminate].
    apply andb_true_iff in Hcond. destruct Hcond as [_ Hlt].
    apply Z.ltb_lt in Hlt.
    rewrite (int32_id (iCount + 1)) by lia.
    unfold bind at 1. unfold array_store.
    destruct ((0 <=? iCount + 1 - 1)
              && (iCount + 1 - 1 <? Z.of_nat (length Addresses)));
      [|discriminate].
    unfold ret at 1. unfold bind at 1. unfold OW_SearchNext, call_val.
    destruct (drv_SearchNext (bus w)) as [r b].
    apply IH; lia.
Qed.

(** C8 (as amended).  [DS1820_Search] called with [iMaxDevices = 0]
    returns count 0 and leaves the array as it was; the calls it makes
    are the weak pull-up, one [OW_SearchFirst(0)] and the terminating
    reset, and [OW_SearchNext] is not called. *)
Theorem DS1820_Search_zero (Addresses : list Z) (w : World) :
  exists w',
    DS1820_Search Addresses 0 w = Done (0, Addresses) w' /\
    new_events w w' =
    [EvWeakPullUp;
     EvSearchFirst 0 (fst (drv_SearchFirst 0 (drv_WeakPullUp (bus w))));
     EvReset].
Proof.
  unfold DS1820_Search, bind, OW_WeakPullUp, OW_SearchFirst, OW_Reset,
    call_unit, call_val.
  cbn [bus trace].
  destruct (drv_SearchFirst 0 (drv_WeakPullUp (bus w))) as [r b].
  change (Z.to_nat 0) with 0%nat. cbn [DS1820_Search_loop fst].
  rewrite Z.ltb_irrefl, andb_false_r.
  unfold ret. eexists. split; [reflexivity|].
  apply new_events_app. cbn [trace].
  now rewrite <- !app_assoc.
Qed.

End Discovery.

(** * Further properties of the code *)

(** ** Alarm threshold codec: the two conversions as arithmetic *)

Lemma uint8_id (z : Z) : 0 <= z < 256 -> uint8 z = z.
Proof. intros H. unfold uint8. apply Z.mod_small. exact H. Qed.

Lemma lor_sign_bit_table :
  forallb (fun x => Z.lor 0x80 x =? 128 + x)
    (map (fun k => 0 + Z.of_nat k) (seq 0 128)) = true.
Proof. vm_compute. reflexivity. Qed.

Lemma lor_sign_bit (x : Z) : 0 <= x < 128 -> Z.lor 0x80 x = 128 + x.
Proof.
  intros Hx. apply Z.eqb_eq.
  apply (forallb_Z_range _ 0 128 lor_sign_bit_table). lia.
Qed.

Lemma land_low_bits (d : Z) : Z.land (uint8 d) 0x7F = d mod 128.
Proof.
  unfold uint8. change 0x7F with (Z.ones 7).
  rewrite Z.land_ones by lia. change (2 ^ 7) with 128.
  apply Z.mod_mod_divide. exists 2. reflexivity.
Qed.

Lemma AlarmEncode_mod (d : Z) :
  AlarmEncode d = if 0 <=? d then d mod 128 else 128 + d mod 128.
Proof.
  unfold AlarmEncode. rewrite land_low_bits.
  pose proof (Z.mod_pos_bound d 128 ltac:(lia)) as Hm.
  rewrite lor_sign_bit by exact Hm.
  destruct (0 <=? d); apply uint8_id; lia.
Qed.

(** X1.  On the thresholds an 8-bit signed value can hold, the byte that
    [DS1820_TemperatureAlarmSet] writes is the two's complement byte of the
    threshold. *)
Theorem AlarmEncode_twos_complement (d : Z) :
  -128 <= d <= 127 -> AlarmEncode d = d mod 256.
Proof.
  intros Hd. rewrite AlarmEncode_mod.
  destruct (Z.leb_spec 0 d) as [Hpos|Hneg].
  - rewrite !Z.mod_small by lia. reflexivity.
  - replace d with ((d + 128) + (-1) * 128) at 1 by lia.
    rewrite Z.mod_add by lia.
    replace d with ((d + 256) + (-1) * 256) at 2 by lia.
    rewrite Z.mod_add by lia.
    rewrite !Z.mod_small by lia. lia.
Qed.

(** X2.  For every [int] threshold the byte written is a byte, and it
    keeps only the threshold modulo 128 beside the sign: a threshold outside
    [-128, 127] is truncated without any error. *)
Theorem AlarmEncode_truncates (d : Z) :
  0 <= AlarmEncode d < 256 /\
  AlarmEncode d = (if 0 <=? d then d mod 128 else 128 + d mod 128) /\
  AlarmEncode (d + 128 * (if 0 <=? d then 1 else -1)) = AlarmEncode d.
Proof.
  pose proof (Z.mod_pos_bound d 128 ltac:(lia)) as Hm.
  rewrite !AlarmEncode_mod.
  split; [destruct (0 <=? d); lia|]. split; [reflexivity|].
  destruct (Z.leb_spec 0 d) as [Hpos|Hneg].
  - destruct (Z.leb_spec 0 (d + 128 * 1)) as [_|H]; [|lia].
    replace (d + 128 * 1) with (d + 1 * 128) by lia.
    now rewrite Z.mod_add by lia.
  - destruct (Z.leb_spec 0 (d + 128 * -1)) as [H|_]; [lia|].
    replace (d + 128 * -1) with (d + (-1) * 128) by lia.
    now rewrite Z.mod_add by lia.
Qed.

Lemma AlarmDecode_table :
  forallb (fun b => AlarmDecode b =? (if b <? 128 then b else 128 - b))
    (map (fun k => 0 + Z.of_nat k) (seq 0 256)) = true.
Proof. vm_compute. reflexivity. Qed.

(** X3.  [DS1820_TemperatureAlarmGet] reads a threshold byte as sign and
    magnitude: a byte below 128 is its own value, a byte [128 + m] is [-m];
    so the two bytes [0x00] and [0x80] both give the threshold 0. *)
Theorem AlarmDecode_sign_magnitude (b : Z) :
  0 <= b < 256 ->
  AlarmDecode b = (if b <? 128 then b else 128 - b) /\
  (AlarmDecode b = 0 <-> b = 0x00 \/ b = 0x80).
Proof.
  intros Hb.
  assert (E : AlarmDecode b = if b <? 128 then b else 128 - b).
  { apply Z.eqb_eq. apply (forallb_Z_range _ 0 256 AlarmDecode_table). lia. }
  split; [exact E|]. rewrite E.
  destruct (Z.ltb_spec b 128); lia.
Qed.

(** ** Temperature decoder: the correction stays near the count *)

(** Truncating division by 100: the remainder has the sign of the
    dividend. *)
Lemma quot_100_rem (x : Z) :
  exists r, x = 100 * Z.quot x 100 + r /\
            (0 <= x -> 0 <= r < 100) /\ (x <= 0 -> -100 < r <= 0).
Proof.
  exists (Z.rem x 100).
  pose proof (Z.quot_rem' x 100) as E.
  pose proof (Z.rem_bound_abs x 100 ltac:(lia)) as R.
  split; [exact E|]. split; intros Hx.
  - pose proof (Z.rem_nonneg x 100 ltac:(lia) Hx). lia.
  - pose proof (Z.rem_nonpos x 100 ltac:(lia) Hx). lia.
Qed.

(** X4.  When the count-remain byte does not exceed the count-per-degree
    byte (and that one is nonzero), the value decoded stays next to the
    half-degree count: between [5 * byte0 - 3] and [5 * byte0 + 7] tenths
    when byte 1 is zero, between [-5 * byte0 - 2] and [-5 * byte0 + 8]
    tenths otherwise. *)
Theorem TemperatureDecode_near_count (sp : list Z) :
  is_scratchpad sp -> sp !!! 7%nat <> 0 -> sp !!! 6%nat <= sp !!! 7%nat ->
  exists v,
    TemperatureDecode sp = Some v /\
    if sp !!! 1%nat =? 0
    then 5 * sp !!! 0%nat - 3 <= v <= 5 * sp !!! 0%nat + 7
    else -5 * sp !!! 0%nat - 2 <= v <= -5 * sp !!! 0%nat + 8.
Proof.
  intros Hsp H7 H67.
  exists (temperature_formula sp).
  split; [now apply TemperatureDecode_formula|].
  pose proof (scratchpad_byte sp 0 Hsp ltac:(lia)) as B0.
  pose proof (scratchpad_byte sp 6 Hsp ltac:(lia)) as B6.
  pose proof (scratchpad_byte sp 7 Hsp ltac:(lia)) as B7.
  unfold temperature_formula. cbv zeta.
  set (b0 := sp !!! 0%nat) in *. set (b6 := sp !!! 6%nat) in *.
  set (b7 := sp !!! 7%nat) in *.
  assert (Hq : 0 <= Z.quot (1000 * (b7 - b6)) b7 <= 1000).
  { split; [apply Z.quot_pos; lia|apply Z.quot_le_upper_bound; lia]. }
  set (q := Z.quot (1000 * (b7 - b6)) b7) in *.
  destruct (sp !!! 1%nat =? 0).
  - destruct (quot_100_rem (b0 * 500 + (-250 + q))) as [r [E [P N]]]. lia.
  - destruct (quot_100_rem (b0 * -500 + (-250 + q))) as [r [E [P N]]]. lia.
Qed.

(** ** Device session: bus traffic of every function *)

Section Traffic.

Context {ow : OneWire}.

Lemma new_events_trans (w w1 w2 : World) (es1 es2 : list ow_event) :
  trace w1 = trace w ++ es1 -> trace w2 = trace w1 ++ es2 ->
  new_events w w2 = es1 ++ es2.
Proof.
  intros H1 H2. apply new_events_app. now rewrite H2, H1, app_assoc.
Qed.

(** Reading [n] bytes adds [n] read events; the bytes kept are the values
    the driver returned, converted to [uint8_t]. *)
Lemma read_bytes_trace (n : nat) :
  forall w, exists raw,
    length raw = n /\
    fst (read_bytes n w) = map uint8 raw /\
    trace (snd (read_bytes n w)) = trace w ++ map EvByteRead raw.
Proof.
  induction n as [|n IH]; intros w.
  - exists []. cbn. now rewrite app_nil_r.
  - cbn [read_bytes fst snd].
    destruct (IH (after w (snd (drv_ByteRead (bus w)))
                    (EvByteRead (fst (drv_ByteRead (bus w))))))
      as [raw [Hlen [Hb Ht]]].
    exists (fst (drv_ByteRead (bus w)) :: raw).
    split; [cbn; now rewrite Hlen|].
    split; [cbn; now rewrite Hb|].
    rewrite Ht. unfold after. cbn [trace map].
    now rewrite <- app_assoc.
Qed.

Lemma scratchpad_read_trace (w : World) :
  exists raw,
    length raw = 9%nat /\
    fst (scratchpad_read w) = map uint8 raw /\
    trace (snd (scratchpad_read w)) = trace w ++ scratchpad_events raw.
Proof.
  unfold scratchpad_read.
  destruct (read_bytes_trace 9
              (after w (drv_ByteWrite SCRATCHPAD_READ (bus w))
                 (EvByteWrite SCRATCHPAD_READ)))
    as [raw [Hlen [Hb Ht]]].
  exists raw. split; [exact Hlen|]. split; [exact Hb|].
  rewrite Ht. unfold after, scratchpad_events. cbn [trace].
  now rewrite <- app_assoc.
Qed.

(** X5.  [ScratchPadRead] on a nine-cell buffer writes the read command
    once and reads exactly nine bytes, whether the CRC matches or not; the
    buffer it leaves holds those nine bytes as [uint8_t] values whatever it
    held before, and the flag is 0 or 1. *)
Theorem ScratchPadRead_traffic (w : World) :
  exists raw flag w',
    length raw = 9%nat /\
    (forall Buffer, length Buffer = 9%nat ->
       ScratchPadRead Buffer w = Done (flag, map uint8 raw) w') /\
    (flag = 0 \/ flag = 1) /\
    new_events w w' = EvByteWrite 0xBE :: map EvByteRead raw.
Proof.
  destruct (scratchpad_read_trace w) as [raw [Hraw [Hb Ht]]].
  exists raw. eexists. exists (snd (scratchpad_read w)).
  split; [exact Hraw|]. split; [|split].
  - intros Buffer Hlen. rewrite (ScratchPadRead_spec Buffer w Hlen).
    cbv zeta. rewrite Hb. reflexivity.
  - destruct (_ =? _); cbn; lia.
  - now apply new_events_app.
Qed.

(** X6.  When device selection reports a nonzero status, each of the six
    functions that test it for zero returns its error value after the weak
    pull-up and the selection alone: no command is written, no byte is
    read, and the thresholds of [DS1820_TemperatureAlarmGet] are
    unchanged. *)
Theorem selection_failure_frame (iAddress : Z) (w : World) :
  select_status iAddress w <> 0 ->
  let w' := selected iAddress w in
  new_events w w' =
    [EvWeakPullUp; EvROMMatch iAddress (select_status iAddress w)] /\
  DS1820_TemperatureGet iAddress w = Done DS1820_TEMP_ERROR w' /\
  (forall iHigh iLow,
     DS1820_TemperatureAlarmSet iAddress iHigh iLow w = Done DS1820_ERROR w') /\
  (forall iHigh iLow,
     DS1820_TemperatureAlarmGet iAddress iHigh iLow w
     = Done (DS1820_ERROR, iHigh, iLow) w') /\
  DS1820_ConfigurationStore iAddress w = Done DS1820_ERROR w' /\
  DS1820_ConfigurationRecall iAddress w = Done DS1820_ERROR w' /\
  DS1820_PowerTypeGet iAddress w = Done DS1820_ERROR w'.
Proof.
  intros Hs w'. apply Z.eqb_neq in Hs.
  split; [apply new_events_app, selected_trace|].
  unfold DS1820_TemperatureGet, DS1820_TemperatureAlarmSet,
    DS1820_TemperatureAlarmGet, DS1820_ConfigurationStore,
    DS1820_ConfigurationRecall, DS1820_PowerTypeGet.
  repeat split; intros; rewrite select_run, Hs; reflexivity.
Qed.

(** X7.  When device selection succeeds, [DS1820_TemperatureAlarmSet]
    returns [DS1820_OK] after writing three bytes: the write-scratchpad
    command [0x4E], the encoded high threshold, then the encoded low
    threshold.  It reads nothing back and does not set the strong
    pull-up. *)
Theorem DS1820_TemperatureAlarmSet_writes
  (iAddress iHigh iLow : Z) (w : World) :
  select_status iAddress w = 0 ->
  exists w',
    DS1820_TemperatureAlarmSet iAddress iHigh iLow w = Done DS1820_OK w' /\
    new_events w w' =
      [EvWeakPullUp; EvROMMatch iAddress 0; EvByteWrite 0x4E;
       EvByteWrite (AlarmEncode iHigh); EvByteWrite (AlarmEncode iLow)].
Proof.
  intros Hs. unfold DS1820_TemperatureAlarmSet.
  rewrite select_run, Hs. cbn [Z.eqb negb].
  unfold ScratchPadWrite, bind, OW_ByteWrite, call_unit, ret.
  eexists. split; [reflexivity|].
  apply new_events_app. cbn [trace bus].
  rewrite selected_trace, Hs. now rewrite <- !app_assoc.
Qed.

(** X8.  When device selection succeeds, [DS1820_ConfigurationStore]
    writes the command [0x48] and then sets the strong pull-up, and
    [DS1820_ConfigurationRecall] writes the command [0xB8] and leaves the
    bus in the weak pull-up; both return [DS1820_OK]. *)
Theorem DS1820_Configuration_commands (iAddress : Z) (w : World) :
  select_status iAddress w = 0 ->
  (exists w',
      DS1820_ConfigurationStore iAddress w = Done DS1820_OK w' /\
      new_events w w' =
        [EvWeakPullUp; EvROMMatch iAddress 0; EvByteWrite 0x48;
         EvStrongPullUp]) /\
  (exists w',
      DS1820_ConfigurationRecall iAddress w = Done DS1820_OK w' /\
      new_events w w' =
        [EvWeakPullUp; EvROMMatch iAddress 0; EvByteWrite 0xB8]).
Proof.
  intros Hs. split.
  - unfold DS1820_ConfigurationStore.
    rewrite select_run, Hs. cbn [Z.eqb negb].
    unfold ScratchPadStore, bind, OW_ByteWrite, OW_StrongPullUp,
      call_unit, ret.
    eexists. split; [reflexivity|].
    apply new_events_app. cbn [trace bus].
    rewrite selected_trace, Hs. now rewrite <- !app_assoc.
  - unfold DS1820_ConfigurationRecall.
    rewrite select_run, Hs. cbn [Z.eqb negb].
    unfold ScratchPadRecall, bind, OW_ByteWrite, call_unit, ret.
    eexists. split; [reflexivity|].
    apply new_events_app. cbn [trace bus].
    rewrite selected_trace, Hs. now rewrite <- !app_assoc.
Qed.

(** X9.  [DS1820_TemperatureConvert] succeeds on every selection status
    other than [OW_NO_DEV]: it then writes the command [0x44], sets the
    strong pull-up as its last call, and returns [DS1820_OK]. *)
Theorem DS1820_TemperatureConvert_starts (iAddress : Z) (w : World) :
  select_status iAddress w <> OW_NO_DEV ->
  exists w',
    DS1820_TemperatureConvert iAddress w = Done DS1820_OK w' /\
    new_events w w' =
      [EvWeakPullUp; EvROMMatch iAddress (select_status iAddress w);
       EvByteWrite 0x44; EvStrongPullUp].
Proof.
  intros Hs. apply Z.eqb_neq in Hs.
  unfold DS1820_TemperatureConvert.
  rewrite select_run, Hs.
  unfold TemperatureConvert, bind, OW_ByteWrite, OW_StrongPullUp,
    call_unit, ret.
  eexists. split; [reflexivity|].
  apply new_events_app. cbn [trace bus].
  rewrite selected_trace. now rewrite <- !app_assoc.
Qed.

(** X10.  The two tests of the selection status disagree on a status that
    is neither zero nor [OW_NO_DEV]: [DS1820_TemperatureConvert] takes it
    for a success and returns [DS1820_OK], while [DS1820_TemperatureGet]
    and [DS1820_ConfigurationStore] take it for a failure. *)
Theorem selection_tests_disagree (iAddress : Z) (w : World) :
  select_status iAddress w <> 0 ->
  select_status iAddress w <> OW_NO_DEV ->
  (exists w', DS1820_TemperatureConvert iAddress w = Done DS1820_OK w') /\
  (exists w', DS1820_TemperatureGet iAddress w = Done DS1820_TEMP_ERROR w') /\
  (exists w', DS1820_ConfigurationStore iAddress w = Done DS1820_ERROR w').
Proof.
  intros H0 Hn. apply Z.eqb_neq in H0. apply Z.eqb_neq in Hn.
  unfold DS1820_TemperatureConvert, DS1820_TemperatureGet,
    DS1820_ConfigurationStore.
  rewrite !select_run, H0, Hn. cbn [negb].
  repeat split; eexists; reflexivity.
Qed.

(** X11.  [DS1820_PowerTypeGet] always returns one of three values:
    [DS1820_ERROR] exactly when the selection status is nonzero; otherwise
    it writes the command [0xB4], reads one byte and returns
    [DS1820_EXTERNAL_POWER] if that byte is nonzero and
    [DS1820_PARASITE_POWER] if it is zero.  It never returns [DS1820_OK]. *)
Theorem DS1820_PowerTypeGet_cases (iAddress : Z) (w : World) :
  exists st w',
    DS1820_PowerTypeGet iAddress w = Done st w' /\
    st <> DS1820_OK /\
    ((select_status iAddress w <> 0 /\ st = DS1820_ERROR /\
      w' = selected iAddress w)
     \/
     (select_status iAddress w = 0 /\
      exists b,
        new_events w w' =
          [EvWeakPullUp; EvROMMatch iAddress 0; EvByteWrite 0xB4;
           EvByteRead b] /\
        st = (if b =? 0 then DS1820_PARASITE_POWER
              else DS1820_EXTERNAL_POWER))).
Proof.
  unfold DS1820_PowerTypeGet. rewrite select_run.
  destruct (Z.eqb_spec (select_status iAddress w) 0) as [Hs|Hs]; cbn [negb].
  - unfold PowerSupplyType, bind, OW_ByteWrite, OW_ByteRead, call_unit,
      call_val, ret. cbn [bus trace].
    destruct (drv_ByteRead _) as [b s].
    do 2 eexists. split; [reflexivity|].
    split; [destruct (b =? 0); discriminate|].
    right. split; [exact Hs|]. exists b. split.
    + apply new_events_app. cbn [trace].
      rewrite selected_trace, Hs. now rewrite <- !app_assoc.
    + now destruct (b =? 0).
  - do 2 eexists. split; [reflexivity|].
    split; [discriminate|]. left. now repeat split.
Qed.

(** X12.  The bus traffic of the two reading functions is the same and
    does not depend on what is read: after the weak pull-up and the
    selection they stop if the status is nonzero, and otherwise write the
    read command and read nine bytes, also when the CRC check fails or the
    decoding divides by zero.  Neither sets the strong pull-up. *)
Theorem read_functions_traffic (iAddress iHigh iLow : Z) (w : World) :
  let w' := outcome_world (DS1820_TemperatureGet iAddress w) in
  outcome_world (DS1820_TemperatureAlarmGet iAddress iHigh iLow w) = w' /\
  ~ In EvStrongPullUp (new_events w w') /\
  exists raw,
    length raw = 9%nat /\
    new_events w w' =
      EvWeakPullUp :: EvROMMatch iAddress (select_status iAddress w)
      :: (if select_status iAddress w =? 0
          then EvByteWrite 0xBE :: map EvByteRead raw else []).
Proof.
  rewrite DS1820_TemperatureGet_run, DS1820_TemperatureAlarmGet_run.
  destruct (scratchpad_read_trace (selected iAddress w))
    as [raw [Hraw [Hb Ht]]].
  set (sp := fst (scratchpad_read (selected iAddress w))) in *.
  set (w2 := snd (scratchpad_read (selected iAddress w))) in *.
  assert (Hw2 : new_events w w2 =
                EvWeakPullUp :: EvROMMatch iAddress (select_status iAddress w)
                :: EvByteWrite 0xBE :: map EvByteRead raw).
  { apply (new_events_trans w (selected iAddress w) w2 _ _
             (selected_trace iAddress w) Ht). }
  assert (Hw1 : new_events w (selected iAddress w) =
                [EvWeakPullUp;
                 EvROMMatch iAddress (select_status iAddress w)])
    by apply new_events_app, selected_trace.
  assert (Hno : forall (es : list Z),
            ~ In EvStrongPullUp (map EvByteRead es)).
  { intros es H. apply in_map_iff in H. destruct H as [x [Hx _]].
    discriminate Hx. }
  destruct (select_status iAddress w =? 0); cbn [negb outcome_world].
  - assert (Hout : forall o : option Z,
              outcome_world (eval DivisionByZero o w2) = w2)
      by (intros [v|]; reflexivity).
    destruct (negb (crc_of (take 8 sp) =? sp !!! 8%nat));
      cbn [outcome_world]; rewrite ?Hout, Hw2.
    + split; [reflexivity|]. split; [|exists raw; now split].
      intros [H|[H|[H|H]]]; try discriminate H. exact (Hno raw H).
    + split; [reflexivity|]. split; [|exists raw; now split].
      intros [H|[H|[H|H]]]; try discriminate H. exact (Hno raw H).
  - rewrite Hw1. split; [reflexivity|].
    split; [|exists raw; now split].
    intros [H|[H|[]]]; discriminate H.
Qed.

(** X13.  A value that [DS1820_TemperatureGet] returns is either the
    sentinel [DS1820_TEMP_ERROR] or a reading between -3817 and 1282 tenths
    of a degree. *)
Theorem DS1820_TemperatureGet_range (iAddress : Z) (w : World) (v : Z)
  (w' : World) :
  DS1820_TemperatureGet iAddress w = Done v w' ->
  v = DS1820_TEMP_ERROR \/ -3817 <= v <= 1282.
Proof.
  rewrite DS1820_TemperatureGet_run.
  pose proof (scratchpad_read_is_scratchpad (selected iAddress w)) as Hsp.
  set (sp := fst (scratchpad_read (selected iAddress w))) in *.
  destruct (negb (select_status iAddress w =? 0));
    [intros H; injection H as <- _; now left|].
  destruct (negb (crc_of (take 8 sp) =? sp !!! 8%nat));
    [intros H; injection H as <- _; now left|].
  destruct (Z.eq_dec (sp !!! 7%nat) 0) as [H7|H7].
  - unfold TemperatureDecode. rewrite H7. cbn. discriminate.
  - rewrite (TemperatureDecode_formula sp Hsp H7). cbn.
    intros H; injection H as <- _. right.
    now apply temperature_formula_range.
Qed.

End Traffic.

(** ** Discovery: what the search stores and how it ends *)

Section SearchAll.

Context {ow : OneWire}.

(** The loop of [DS1820_Search] entered with address [iAddress] and count
    [iCount], on an array that has room for [iMaxDevices] addresses.  [raw]
    are the values [OW_SearchNext] returned, one per iteration. *)
Lemma DS1820_Search_loop_spec (fuel : nat) :
  forall (iMaxDevices iAddress : Z) (n : nat) (Addresses : list Z)
         (w : World),
    iMaxDevices < 2 ^ 31 ->
    iMaxDevices - Z.of_nat n <= Z.of_nat fuel ->
    iMaxDevices <= Z.of_nat (length Addresses) ->
    exists raw w',
      DS1820_Search_loop fuel iMaxDevices iAddress (Z.of_nat n) Addresses w
      = Done (Z.of_nat (n + length raw),
              take n Addresses
              ++ take (length raw) (iAddress :: map uint64 raw)
              ++ drop (n + length raw) Addresses) w' /\
      trace w' = trace w ++ map EvSearchNext raw /\
      Forall (fun a => a <> 0) (take (length raw) (iAddress :: map uint64 raw)) /\
      Z.of_nat (n + length raw) <= Z.max (Z.of_nat n) iMaxDevices /\
      (Z.of_nat (n + length raw) < iMaxDevices ->
       last (iAddress :: map uint64 raw) = Some 0).
Proof.
  induction fuel as [|fuel IH];
    intros iMaxDevices iAddress n Addresses w Hmax Hfuel Hroom.
  - exists [], w. cbn [DS1820_Search_loop length map take].
    destruct (Z.ltb_spec (Z.of_nat n) iMaxDevices) as [Hlt|Hge]; [lia|].
    rewrite andb_false_r, Nat.add_0_r, app_nil_r.
    cbn [app]. rewrite take_drop.
    split; [reflexivity|]. split; [reflexivity|].
    split; [constructor|]. split; lia.
  - cbn [DS1820_Search_loop].
    destruct (negb (iAddress =? 0) && (Z.of_nat n <? iMaxDevices))
      eqn:Hcond.
    + apply andb_true_iff in Hcond. destruct Hcond as [Hnz Hlt].
      apply negb_true_iff, Z.eqb_neq in Hnz. apply Z.ltb_lt in Hlt.
      rewrite (int32_id (Z.of_nat n + 1)) by lia.
      replace (Z.of_nat n + 1 - 1) with (Z.of_nat n) by lia.
      unfold bind at 1. rewrite array_store_in by lia.
      unfold bind at 1. unfold OW_SearchNext, call_val.
      destruct (drv_SearchNext (bus w)) as [r b].
      replace (Z.of_nat n + 1) with (Z.of_nat (S n)) by lia.
      destruct (IH iMaxDevices (uint64 r) (S n) (<[n:=iAddress]> Addresses)
                  (mkWorld b (trace w ++ [EvSearchNext r])))
        as [raw [w' [Hrun [Ht [Hall [Hle Hlast]]]]]];
        [lia|lia|rewrite length_insert; lia|].
      exists (r :: raw), w'.
      rewrite Hrun. cbn [length map take].
      replace (n + S (length raw))%nat with (S n + length raw)%nat by lia.
      split; [|split; [|split; [|split]]].
      * f_equal. f_equal.
        rewrite (take_S_r _ _ iAddress)
          by (apply list_lookup_insert_eq; lia).
        rewrite take_insert_ge by lia.
        rewrite drop_insert_lt by lia.
        now rewrite <- app_assoc.
      * rewrite Ht. cbn [trace]. now rewrite <- app_assoc.
      * constructor; assumption.
      * lia.
      * intros H. rewrite last_cons_cons. apply Hlast. exact H.
    + exists [], w. cbn [length map take].
      rewrite Nat.add_0_r, app_nil_r. cbn [app]. rewrite take_drop.
      split; [reflexivity|]. split; [reflexivity|].
      split; [constructor|]. split; [lia|].
      intros Hlt. apply Z.ltb_lt in Hlt. rewrite Hlt, andb_true_r in Hcond.
      apply negb_false_iff, Z.eqb_eq in Hcond. now subst.
Qed.

(** [DS1820_Search] on an array with room for [iMaxDevices] addresses. *)
Lemma DS1820_Search_spec (Addresses : list Z) (iMaxDevices : Z) (w : World) :
  iMaxDevices < 2 ^ 31 ->
  iMaxDevices <= Z.of_nat (length Addresses) ->
  exists first raw w',
    let found := take (length raw) (uint64 first :: map uint64 raw) in
    DS1820_Search Addresses iMaxDevices w
    = Done (Z.of_nat (length raw),
            found ++ drop (length raw) Addresses) w' /\
    new_events w w' =
      EvWeakPullUp :: EvSearchFirst 0 first
      :: map EvSearchNext raw ++ [EvReset] /\
    Forall (fun a => a <> 0) found /\
    Z.of_nat (length raw) <= Z.max 0 iMaxDevices /\
    (Z.of_nat (length raw) < iMaxDevices ->
     last (uint64 first :: map uint64 raw) = Some 0).
Proof.
  intros Hmax Hroom.
  unfold DS1820_Search.
  unfold bind at 1. unfold OW_WeakPullUp, call_unit.
  unfold bind at 1. unfold OW_SearchFirst, call_val. cbn [bus trace].
  destruct (drv_SearchFirst 0 (drv_WeakPullUp (bus w))) as [first b].
  unfold bind at 1.
  destruct (DS1820_Search_loop_spec (Z.to_nat iMaxDevices) iMaxDevices
              (uint64 first) 0 Addresses
              (mkWorld b ((trace w ++ [EvWeakPullUp])
                          ++ [EvSearchFirst 0 first])))
    as [raw [w' [Hrun [Ht [Hall [Hle Hlast]]]]]]; [lia|lia|lia|].
  change (Z.of_nat 0) with 0 in Hrun. rewrite Hrun.
  exists first, raw. eexists.
  unfold bind, OW_Reset, call_unit, ret.
  cbn [take app Nat.add] in *.
  split; [reflexivity|]. split; [|split; [|split]].
  - apply new_events_app. cbn [trace]. rewrite Ht. cbn [trace].
    rewrite <- !app_assoc. reflexivity.
  - exact Hall.
  - exact Hle.
  - exact Hlast.
Qed.

(** X14.  On an array with room for [iMaxDevices] addresses,
    [DS1820_Search] returns a count between 0 and [iMaxDevices]; the array
    keeps its length, the cells from the count on are untouched, and the
    cells below it hold nonzero 64-bit addresses. *)
Theorem DS1820_Search_result
  (Addresses : list Z) (iMaxDevices : Z) (w : World) :
  iMaxDevices < 2 ^ 31 ->
  iMaxDevices <= Z.of_nat (length Addresses) ->
  exists (count : nat) (Addresses' : list Z) (w' : World),
    DS1820_Search Addresses iMaxDevices w
    = Done (Z.of_nat count, Addresses') w' /\
    Z.of_nat count <= Z.max 0 iMaxDevices /\
    length Addresses' = length Addresses /\
    drop count Addresses' = drop count Addresses /\
    Forall (fun a => a <> 0 /\ 0 <= a < 2 ^ 64) (take count Addresses').
Proof.
  intros Hmax Hroom.
  destruct (DS1820_Search_spec Addresses iMaxDevices w Hmax Hroom)
    as [first [raw [w' [Hrun [_ [Hall [Hle _]]]]]]].
  set (found := take (length raw) (uint64 first :: map uint64 raw)) in *.
  assert (Hlen : length found = length raw).
  { unfold found. rewrite length_take. cbn [length].
    rewrite length_map. lia. }
  exists (length raw), (found ++ drop (length raw) Addresses), w'.
  split; [exact Hrun|]. split; [exact Hle|]. split; [|split].
  - rewrite length_app, length_drop, Hlen. lia.
  - rewrite <- Hlen at 1. now rewrite drop_app_length.
  - rewrite <- Hlen at 1. rewrite take_app_length.
    apply Forall_and. split; [exact Hall|].
    unfold found. apply Forall_take. constructor.
    + apply Z.mod_pos_bound. lia.
    + apply Forall_forall. intros a Ha.
      apply list_elem_of_In, in_map_iff in Ha. destruct Ha as [x [<- _]].
      apply Z.mod_pos_bound. lia.
Qed.

(** X15.  On an array with room for [iMaxDevices] addresses,
    [DS1820_Search] stores the addresses in the order the bus reported
    them, the one of [OW_SearchFirst(0)] first; it calls [OW_SearchNext]
    once per address stored, so the last answer fetched is never stored,
    and its last call is the bus reset.  When it returns fewer than
    [iMaxDevices] addresses, that last answer was 0: the bus had no further
    device. *)
Theorem DS1820_Search_order
  (Addresses : list Z) (iMaxDevices : Z) (w : World) :
  iMaxDevices < 2 ^ 31 ->
  iMaxDevices <= Z.of_nat (length Addresses) ->
  exists (first : Z) (raw : list Z) (w' : World),
    DS1820_Search Addresses iMaxDevices w
    = Done (Z.of_nat (length raw),
            take (length raw) (uint64 first :: map uint64 raw)
            ++ drop (length raw) Addresses) w' /\
    new_events w w' =
      EvWeakPullUp :: EvSearchFirst 0 first
      :: map EvSearchNext raw ++ [EvReset] /\
    (Z.of_nat (length raw) < iMaxDevices ->
     last (uint64 first :: map uint64 raw) = Some 0).
Proof.
  intros Hmax Hroom.
  destruct (DS1820_Search_spec Addresses iMaxDevices w Hmax Hroom)
    as [first [raw [w' [Hrun [Hev [_ [_ Hlast]]]]]]].
  exists first, raw, w'. now repeat split.
Qed.

(** X16.  When [OW_SearchFirst(0)] answers 0, [DS1820_Search] returns
    count 0 whatever [iMaxDevices] is, leaves the array as it was (also an
    empty one), never calls [OW_SearchNext], and ends with the bus
    reset. *)
Theorem DS1820_Search_no_device
  (Addresses : list Z) (iMaxDevices : Z) (w : World) :
  uint64 (fst (drv_SearchFirst 0 (drv_WeakPullUp (bus w)))) = 0 ->
  exists w',
    DS1820_Search Addresses iMaxDevices w = Done (0, Addresses) w' /\
    new_events w w' =
      [EvWeakPullUp;
       EvSearchFirst 0 (fst (drv_SearchFirst 0 (drv_WeakPullUp (bus w))));
       EvReset].
Proof.
  unfold DS1820_Search, bind, OW_WeakPullUp, OW_SearchFirst, OW_Reset,
    call_unit, call_val.
  cbn [bus trace].
  destruct (drv_SearchFirst 0 (drv_WeakPullUp (bus w))) as [r b].
  cbn [fst]. intros Hr. rewrite Hr.
  destruct (Z.to_nat iMaxDevices); cbn [DS1820_Search_loop];
    change (0 =? 0) with true; cbn [negb andb];
    unfold ret; (eexists; split; [reflexivity|]);
    apply new_events_app; cbn [trace]; now rewrite <- !app_assoc.
Qed.

(** The loop with [k] free cells left, on a bus that still has more than
    [k] devices to report. *)
Lemma DS1820_Search_loop_overflow (k : nat) :
  forall (fuel : nat) (iMaxDevices iAddress : Z) (n : nat)
         (Addresses : list Z) (w : World),
    (n + k = length Addresses)%nat ->
    Z.of_nat (length Addresses) < iMaxDevices < 2 ^ 31 ->
    iMaxDevices - Z.of_nat n <= Z.of_nat fuel ->
    iAddress <> 0 ->
    Forall (fun a => a <> 0) (search_answers k (bus w)) ->
    exists w',
      DS1820_Search_loop fuel iMaxDevices iAddress (Z.of_nat n) Addresses w
      = Fault OutOfBounds w'.
Proof.
  induction k as [|k IH];
    intros fuel iMaxDevices iAddress n Addresses w Hk Hmax Hfuel Hnz Hans.
  - destruct fuel as [|fuel]; [lia|].
    cbn [DS1820_Search_loop].
    apply Z.eqb_neq in Hnz. rewrite Hnz. cbn [negb andb].
    replace (Z.of_nat n <? iMaxDevices) with true
      by (symmetry; apply Z.ltb_lt; lia).
    rewrite (int32_id (Z.of_nat n + 1)) by lia.
    unfold bind at 1. unfold array_store.
    replace (Z.of_nat n + 1 - 1 <? Z.of_nat (length Addresses)) with false
      by (symmetry; apply Z.ltb_ge; lia).
    rewrite andb_false_r. unfold raise. eexists. reflexivity.
  - destruct fuel as [|fuel]; [lia|].
    cbn [DS1820_Search_loop].
    apply Z.eqb_neq in Hnz. rewrite Hnz. cbn [negb andb].
    replace (Z.of_nat n <? iMaxDevices) with true
      by (symmetry; apply Z.ltb_lt; lia).
    rewrite (int32_id (Z.of_nat n + 1)) by lia.
    replace (Z.of_nat n + 1 - 1) with (Z.of_nat n) by lia.
    unfold bind at 1. rewrite array_store_in by lia.
    unfold bind at 1. unfold OW_SearchNext, call_val.
    cbn [search_answers] in Hans.
    destruct (drv_SearchNext (bus w)) as [r b]. cbn [fst snd] in Hans.
    apply Forall_cons in Hans. destruct Hans as [Hr Hans].
    replace (Z.of_nat n + 1) with (Z.of_nat (S n)) by lia.
    apply IH; try assumption.
    + rewrite length_insert. lia.
    + rewrite length_insert. lia.
    + lia.
Qed.

(** X17.  [DS1820_Search] does not look at the size of the array: when
    [iMaxDevices] exceeds the number of cells and the bus reports more
    devices than there are cells, it writes past the end of the array
    (undefined behaviour). *)
Theorem DS1820_Search_overflow
  (Addresses : list Z) (iMaxDevices : Z) (w : World) :
  Z.of_nat (length Addresses) < iMaxDevices < 2 ^ 31 ->
  let first := drv_SearchFirst 0 (drv_WeakPullUp (bus w)) in
  uint64 (fst first) <> 0 ->
  Forall (fun a => a <> 0) (search_answers (length Addresses) (snd first)) ->
  exists w', DS1820_Search Addresses iMaxDevices w = Fault OutOfBounds w'.
Proof.
  intros Hmax first Hfirst Hans. unfold first in *. clear first.
  unfold DS1820_Search.
  unfold bind at 1. unfold OW_WeakPullUp, call_unit.
  unfold bind at 1. unfold OW_SearchFirst, call_val. cbn [bus trace].
  destruct (drv_SearchFirst 0 (drv_WeakPullUp (bus w))) as [r b].
  cbn [fst snd] in *.
  unfold bind at 1.
  destruct (DS1820_Search_loop_overflow (length Addresses)
              (Z.to_nat iMaxDevices) iMaxDevices (uint64 r) 0 Addresses
              (mkWorld b ((trace w ++ [EvWeakPullUp])
                          ++ [EvSearchFirst 0 r])))
    as [w' Hrun]; try assumption; try lia.
  change (Z.of_nat 0) with 0 in Hrun. rewrite Hrun.
  eexists. reflexivity.
Qed.

End SearchAll.

(** ** The theorems on the simulated bus *)

#[local] Existing Instance Sim.driver.

(** C8 (as the claim states it).  On a bus with two devices,
    [DS1820_Search] with [iMaxDevices = 0] does invoke a search primitive
    before the terminating reset. *)
Lemma DS1820_Search_zero_not_silent :
  ~ search_zero_silent (ow := Sim.driver) [0; 0] (Sim.world 0 [] [11; 12]).
Proof.
  intros [w' [Hrun Hsilent]].
  vm_compute in Hrun. injection Hrun as <-.
  vm_compute in Hsilent. discriminate Hsilent.
Qed.

Lemma DS1820_TemperatureGet_formula_sample :
  let w := Sim.world 0 Sim.sample_negative [] in
  let sp := Sim.sample_negative in
  let w' := snd (scratchpad_read (selected 5 w)) in
  select_status 5 w = 0 /\
  scratchpad_read (selected 5 w) = (sp, w') /\
  crc_of (take 8 sp) = sp !!! 8%nat /\
  sp !!! 7%nat <> 0 /\
  DS1820_TemperatureGet 5 w = Done (-725) w'.
Proof.
  intros w sp w'.
  assert (H7 : sp !!! 7%nat <> 0) by (vm_compute; discriminate).
  split; [reflexivity|]. split; [reflexivity|]. split; [reflexivity|].
  split; [exact H7|].
  exact (DS1820_TemperatureGet_formula (ow := Sim.driver) 5 w sp w'
           eq_refl eq_refl eq_refl H7).
Defined.

Lemma DS1820_TemperatureGet_zero_divisor_sample :
  let w := Sim.world 0 Sim.sample_zeros [] in
  let sp := Sim.sample_zeros in
  let w' := snd (scratchpad_read (selected 0 w)) in
  select_status 0 w = 0 /\
  scratchpad_read (selected 0 w) = (sp, w') /\
  crc_of (take 8 sp) = sp !!! 8%nat /\
  sp !!! 7%nat = 0 /\
  DS1820_TemperatureGet 0 w = Fault DivisionByZero w'.
Proof.
  intros w sp w'.
  split; [reflexivity|]. split; [reflexivity|]. split; [reflexivity|].
  split; [reflexivity|].
  exact (DS1820_TemperatureGet_zero_divisor (ow := Sim.driver) 0 w sp w'
           eq_refl eq_refl eq_refl eq_refl).
Defined.

Lemma ScratchPadRead_crc_sample :
  let w := Sim.world 0 Sim.sample_corrupt [] in
  let sp := Sim.sample_corrupt in
  let w1 := selected 5 w in
  let w' := snd (scratchpad_read w1) in
  length iSPad_local = 9%nat /\
  scratchpad_read w1 = (sp, w') /\
  (exists flag,
      ScratchPadRead iSPad_local w1 = Done (flag, sp) w' /\
      (flag <> 0 <-> crc_of (take 8 sp) <> sp !!! 8%nat)) /\
  DS1820_TemperatureGet 5 w = Done DS1820_TEMP_ERROR w' /\
  DS1820_TemperatureAlarmGet 5 30 10 w = Done (DS1820_ERROR, 30, 10) w'.
Proof.
  intros w sp w1 w'.
  destruct (ScratchPadRead_crc (ow := Sim.driver) iSPad_local w1 sp w'
              eq_refl eq_refl) as [Hflag Hcallers].
  assert (Hcrc : crc_of (take 8 sp) <> sp !!! 8%nat)
    by (vm_compute; discriminate).
  destruct (Hcallers Hcrc 5 w eq_refl eq_refl) as [Hget Halarm].
  split; [reflexivity|]. split; [reflexivity|].
  split; [exact Hflag|]. split; [exact Hget|].
  exact (Halarm 30 10).
Defined.

Lemma DS1820_TemperatureGet_sentinel_sample :
  (exists w', DS1820_TemperatureGet (ow := Sim.driver) 5
                (Sim.world 1 Sim.sample_negative [])
              = Done DS1820_TEMP_ERROR w') /\
  (exists w', DS1820_TemperatureGet (ow := Sim.driver) 5
                (Sim.world 0 Sim.sample_corrupt [])
              = Done DS1820_TEMP_ERROR w').
Proof.
  split.
  - apply DS1820_TemperatureGet_sentinel.
    left. vm_compute. discriminate.
  - apply DS1820_TemperatureGet_sentinel.
    right. vm_compute. discriminate.
Defined.

Lemma DS1820_TemperatureConvert_absent_sample :
  let w := Sim.world 1 [] [] in
  select_status (ow := Sim.driver) 5 w = OW_NO_DEV /\
  exists w',
    DS1820_TemperatureConvert 5 w = Done DS1820_ERROR w' /\
    new_events w w' = [EvWeakPullUp; EvROMMatch 5 OW_NO_DEV] /\
    ~ In (EvByteWrite 0x44) (new_events w w') /\
    ~ In EvStrongPullUp (new_events w w').
Proof.
  intros w. split; [reflexivity|].
  exact (DS1820_TemperatureConvert_absent (ow := Sim.driver) 5 w eq_refl).
Defined.

(** ** The further properties on the simulated bus *)

Lemma AlarmEncode_twos_complement_minus_one :
  -128 <= -1 <= 127 /\ AlarmEncode (-1) = (-1) mod 256.
Proof.
  split; [lia|]. apply (AlarmEncode_twos_complement (-1)). lia.
Defined.

Lemma AlarmDecode_sign_magnitude_negative_zero :
  0 <= 0x80 < 256 /\
  AlarmDecode 0x80 = (if 0x80 <? 128 then 0x80 else 128 - 0x80) /\
  (AlarmDecode 0x80 = 0 <-> 0x80 = 0x00 \/ 0x80 = 0x80).
Proof.
  split; [lia|]. apply (AlarmDecode_sign_magnitude 0x80). lia.
Defined.

Lemma TemperatureDecode_near_count_sample :
  is_scratchpad Sim.sample_positive /\
  Sim.sample_positive !!! 7%nat <> 0 /\
  Sim.sample_positive !!! 6%nat <= Sim.sample_positive !!! 7%nat /\
  exists v,
    TemperatureDecode Sim.sample_positive = Some v /\
    if Sim.sample_positive !!! 1%nat =? 0
    then 5 * Sim.sample_positive !!! 0%nat - 3 <= v
         <= 5 * Sim.sample_positive !!! 0%nat + 7
    else -5 * Sim.sample_positive !!! 0%nat - 2 <= v
         <= -5 * Sim.sample_positive !!! 0%nat + 8.
Proof.
  assert (Hsp : is_scratchpad Sim.sample_positive)
    by (apply sample_is_scratchpad; reflexivity).
  assert (H7 : Sim.sample_positive !!! 7%nat <> 0)
    by (vm_compute; discriminate).
  assert (H67 : Sim.sample_positive !!! 6%nat <= Sim.sample_positive !!! 7%nat)
    by (vm_compute; discriminate).
  split; [exact Hsp|]. split; [exact H7|]. split; [exact H67|].
  exact (TemperatureDecode_near_count Sim.sample_positive Hsp H7 H67).
Defined.

Lemma selection_failure_frame_sample :
  let w := Sim.world 1 Sim.sample_negative [] in
  select_status 5 w <> 0 /\
  DS1820_TemperatureGet 5 w = Done DS1820_TEMP_ERROR (selected 5 w) /\
  DS1820_PowerTypeGet 5 w = Done DS1820_ERROR (selected 5 w).
Proof.
  intros w.
  assert (Hs : select_status 5 w <> 0) by (vm_compute; discriminate).
  split; [exact Hs|].
  destruct (selection_failure_frame 5 w Hs)
    as [_ [Hget [_ [_ [_ [_ Hpow]]]]]].
  split; [exact Hget|exact Hpow].
Defined.

Lemma DS1820_TemperatureAlarmSet_writes_sample :
  let w := Sim.world 0 [] [] in
  select_status 5 w = 0 /\
  exists w',
    DS1820_TemperatureAlarmSet 5 30 (-5) w = Done DS1820_OK w' /\
    new_events w w' =
      [EvWeakPullUp; EvROMMatch 5 0; EvByteWrite 0x4E;
       EvByteWrite (AlarmEncode 30); EvByteWrite (AlarmEncode (-5))].
Proof.
  intros w. split; [reflexivity|].
  exact (DS1820_TemperatureAlarmSet_writes 5 30 (-5) w eq_refl).
Defined.

Lemma DS1820_Configuration_commands_sample :
  let w := Sim.world 0 [] [] in
  select_status 5 w = 0 /\
  (exists w',
      DS1820_ConfigurationStore 5 w = Done DS1820_OK w' /\
      new_events w w' =
        [EvWeakPullUp; EvROMMatch 5 0; EvByteWrite 0x48; EvStrongPullUp]) /\
  (exists w',
      DS1820_ConfigurationRecall 5 w = Done DS1820_OK w' /\
      new_events w w' =
        [EvWeakPullUp; EvROMMatch 5 0; EvByteWrite 0xB8]).
Proof.
  intros w. split; [reflexivity|].
  exact (DS1820_Configuration_commands 5 w eq_refl).
Defined.

Lemma DS1820_TemperatureConvert_starts_sample :
  let w := Sim.world 0 [] [] in
  select_status 0 w <> OW_NO_DEV /\
  exists w',
    DS1820_TemperatureConvert 0 w = Done DS1820_OK w' /\
    new_events w w' =
      [EvWeakPullUp; EvROMMatch 0 (select_status 0 w);
       EvByteWrite 0x44; EvStrongPullUp].
Proof.
  intros w.
  assert (Hs : select_status 0 w <> OW_NO_DEV) by (vm_compute; discriminate).
  split; [exact Hs|].
  exact (DS1820_TemperatureConvert_starts 0 w Hs).
Defined.

Lemma selection_tests_disagree_sample :
  let w := Sim.world 2 [] [] in
  select_status 5 w <> 0 /\
  select_status 5 w <> OW_NO_DEV /\
  (exists w', DS1820_TemperatureConvert 5 w = Done DS1820_OK w') /\
  (exists w', DS1820_TemperatureGet 5 w = Done DS1820_TEMP_ERROR w') /\
  (exists w', DS1820_ConfigurationStore 5 w = Done DS1820_ERROR w').
Proof.
  intros w.
  assert (H0 : select_status 5 w <> 0) by (vm_compute; discriminate).
  assert (Hn : select_status 5 w <> OW_NO_DEV) by (vm_compute; discriminate).
  split; [exact H0|]. split; [exact Hn|].
  exact (selection_tests_disagree 5 w H0 Hn).
Defined.

Lemma DS1820_TemperatureGet_range_sample :
  let w := Sim.world 0 Sim.sample_negative [] in
  let w' := snd (scratchpad_read (selected 5 w)) in
  DS1820_TemperatureGet 5 w = Done (-725) w' /\
  (-725 = DS1820_TEMP_ERROR \/ -3817 <= -725 <= 1282).
Proof.
  intros w w'.
  assert (Hrun : DS1820_TemperatureGet 5 w = Done (-725) w')
    by reflexivity.
  split; [exact Hrun|].
  exact (DS1820_TemperatureGet_range 5 w (-725) w' Hrun).
Defined.

Lemma DS1820_Search_result_sample :
  let w := Sim.world 0 [] [11; 12] in
  let Address := replicate 8 0 in
  8 < 2 ^ 31 /\ 8 <= Z.of_nat (length Address) /\
  exists (count : nat) (Addresses' : list Z) (w' : World),
    DS1820_Search Address 8 w = Done (Z.of_nat count, Addresses') w' /\
    Z.of_nat count <= Z.max 0 8 /\
    length Addresses' = length Address /\
    drop count Addresses' = drop count Address /\
    Forall (fun a => a <> 0 /\ 0 <= a < 2 ^ 64) (take count Addresses').
Proof.
  intros w Address.
  assert (H1 : 8 < 2 ^ 31) by reflexivity.
  assert (H2 : 8 <= Z.of_nat (length Address)) by (cbn; lia).
  split; [exact H1|]. split; [exact H2|].
  exact (DS1820_Search_result Address 8 w H1 H2).
Defined.

Lemma DS1820_Search_order_sample :
  let w := Sim.world 0 [] [11; 12; 13] in
  2 < 2 ^ 31 /\ 2 <= Z.of_nat (length [0; 0; 0]) /\
  exists (first : Z) (raw : list Z) (w' : World),
    DS1820_Search [0; 0; 0] 2 w
    = Done (Z.of_nat (length raw),
            take (length raw) (uint64 first :: map uint64 raw)
            ++ drop (length raw) [0; 0; 0]) w' /\
    new_events w w' =
      EvWeakPullUp :: EvSearchFirst 0 first
      :: map EvSearchNext raw ++ [EvReset] /\
    (Z.of_nat (length raw) < 2 ->
     last (uint64 first :: map uint64 raw) = Some 0).
Proof.
  intros w.
  assert (H1 : 2 < 2 ^ 31) by reflexivity.
  assert (H2 : 2 <= Z.of_nat (length [0; 0; 0])) by (cbn; lia).
  split; [exact H1|]. split; [exact H2|].
  exact (DS1820_Search_order [0; 0; 0] 2 w H1 H2).
Defined.

Lemma DS1820_Search_no_device_sample :
  let w := Sim.world 0 [] [] in
  uint64 (fst (drv_SearchFirst 0 (drv_WeakPullUp (bus w)))) = 0 /\
  exists w',
    DS1820_Search [] 8 w = Done (0, []) w' /\
    new_events w w' =
      [EvWeakPullUp;
       EvSearchFirst 0 (fst (drv_SearchFirst 0 (drv_WeakPullUp (bus w))));
       EvReset].
Proof.
  intros w. split; [reflexivity|].
  exact (DS1820_Search_no_device [] 8 w eq_refl).
Defined.

Lemma DS1820_Search_overflow_sample :
  let w := Sim.world 0 [] [11; 12; 13] in
  let first := drv_SearchFirst 0 (drv_WeakPullUp (bus w)) in
  Z.of_nat (length [0]) < 2 < 2 ^ 31 /\
  uint64 (fst first) <> 0 /\
  Forall (fun a => a <> 0) (search_answers (length [0]) (snd first)) /\
  exists w', DS1820_Search [0] 2 w = Fault OutOfBounds w'.
Proof.
  intros w first.
  assert (H1 : Z.of_nat (length [0]) < 2 < 2 ^ 31) by (cbn; lia).
  assert (H2 : uint64 (fst first) <> 0) by (vm_compute; discriminate).
  assert (H3 : Forall (fun a => a <> 0)
                 (search_answers (length [0]) (snd first))).
  { repeat constructor. vm_compute. discriminate. }
  split; [exact H1|]. split; [exact H2|]. split; [exact H3|].
  exact (DS1820_Search_overflow [0] 2 w H1 H2 H3).
Defined.
